(** * gusteau, chapter 1: the three engines and the join_now flag

    A shallow embedding of [src/chapter1.cpp]: the context objects and
    their constructors, the factory functions, the UI render pass, the
    three engines and [main], followed by the properties of the shutdown
    protocol.

    Conventions of the embedding.
    - A C++ pointer is [ptr]: [None] is [nullptr], [Some a] an address.
    - Objects made with [new] live in [heap], a finite map from addresses
      to [Detail] objects.
    - Every call into GLFW, GLEW, OpenGL, Dear ImGui or the standard streams
      is recorded, in program order, in [calls]; what such a call answers is
      an input of the embedding ([InitEnv], [FrameEnv]).
    - A function of the program is a computation [M A]: it takes the world
      and either returns, throws a C++ exception, or has undefined behaviour
      (a null pointer is dereferenced).
    - The application context is one shared object; the embedding threads
      its value through every function that receives a reference or a
      [shared_ptr] to it.
    - Line 569 declares [Run] with a parameter type that its own
      [override] specifier excludes. [GusteauChapter1UI_Run] is the function
      as line 569 writes it; the call made through the lambda of line 501
      is modelled for both parameter types ([Run_parameter]). *)

From Stdlib Require Import ZArith QArith Qabs String List Bool Lia.
From Stdlib Require Import Floats.SpecFloat.
From stdpp Require Import gmap strings relations.

Local Open Scope string_scope.
Local Open Scope Z_scope.
Local Open Scope list_scope.

(** ** Pointers, floats and the external vocabulary *)

Definition addr := positive.
Definition ptr := option addr.
Definition nullptr : ptr := None.

Definition is_null (p : ptr) : bool :=
  match p with None => true | Some _ => false end.

(** [float] is IEEE binary32: 24 bits of precision, exponents below 128. *)
Definition float_prec : Z := 24.
Definition float_emax : Z := 128.
Definition float_div : spec_float -> spec_float -> spec_float :=
  SFdiv float_prec float_emax.

(** The literals [1.f] and [24.f]. *)
Definition lit_1f : spec_float := S754_finite false 8388608 (-23).
Definition lit_24f : spec_float := S754_finite false 12582912 (-19).

(** The exact rational value of a finite float. *)
Definition float_to_Q (f : spec_float) : option Q :=
  match f with
  | S754_zero _ => Some 0%Q
  | S754_finite s m e =>
      let mag := (inject_Z (Z.pos m) * Qpower 2 e)%Q in
      Some (if s then Qopp mag else mag)
  | _ => None
  end.

(** Macros of the GLFW and OpenGL headers, kept symbolic. *)
Inductive GlfwHint :=
| GLFW_CONTEXT_VERSION_MAJOR
| GLFW_CONTEXT_VERSION_MINOR
| GLFW_OPENGL_PROFILE
| GLFW_OPENGL_FORWARD_COMPAT
| GLFW_VISIBLE.

Inductive HintValue :=
| IntValue (z : Z)
| GLFW_OPENGL_CORE_PROFILE
| GL_TRUE
| GLFW_TRUE
| GLFW_FALSE.

Inductive GLName := GL_RENDERER | GL_VERSION.

Inductive ImGuiWindowFlag :=
| ImGuiWindowFlags_NoTitleBar
| ImGuiWindowFlags_NoResize
| ImGuiWindowFlags_NoMove
| ImGuiWindowFlags_NoCollapse
| ImGuiWindowFlags_NoBringToFrontOnFocus
| ImGuiWindowFlags_NoFocusOnAppearing
| ImGuiWindowFlags_NoScrollbar
| ImGuiWindowFlags_NoScrollWithMouse.

(** One constructor per external call the program makes, and per store to
    a variable of an external library ([glewExperimental], the fields of
    ImGui's IO and context structures). [error_callback], which GLFW may
    invoke on its own errors, writes to [stderr] only and is not part of
    the record. *)
Inductive Call :=
| glfwSetErrorCallback
| glfwInit
| glfwWindowHint (hint : GlfwHint) (value : HintValue)
| glfwCreateWindow (width height : Z) (title : string) (monitor share : ptr)
| glfwMakeContextCurrent (window : ptr)
| glfwSwapInterval (interval : Z)
| glfwDestroyWindow (window : ptr)
| glfwTerminate
| glfwGetFramebufferSize (window : ptr)
| glfwWaitEventsTimeout (timeout : spec_float)
| glfwSwapBuffers (window : ptr)
| set_glewExperimental (value : HintValue)
| glewInit
| glGetString (name : GLName)
| glViewport (x y w h : Z)
| glClearColor_ImColor (r g b a : Z)
| glClear_color_and_depth
| std_cerr (text : string)
| std_cout (text : string)
| IMGUI_CHECKVERSION
| ImGui_CreateContext
| ImGui_GetIO
| ImGui_StyleColorsDark
| ImGui_ImplGlfw_InitForOpenGL (window : ptr) (install_callbacks : bool)
| ImGui_ImplOpenGL3_Init (glsl_version : string)
| ImGui_ImplOpenGL3_Shutdown
| ImGui_ImplGlfw_Shutdown
| ImGui_DestroyContext
| ImGui_GetCurrentContext
| ImGui_SetCurrentContext (ctx : ptr)
| copy_Style (dst src : ptr)
| copy_KeyMap (dst src : ptr)
| copy_IniFilename (dst src : ptr)
| copy_RenderDrawListsFn (dst src : ptr)
| copy_Initialized (dst src : ptr)
| set_DisplaySize (w h : Z)
| ImGui_ImplOpenGL3_NewFrame
| ImGui_ImplGlfw_NewFrame
| ImGui_NewFrame
| ImGui_SetNextWindowPos (x y : Z)
| ImGui_SetNextWindowSize (w h : Z)
| ImGui_Begin_GraphicsWindow (this : addr) (flags : list ImGuiWindowFlag)
| ImGui_SetWindowFontScale (scale : spec_float)
| ImGui_Text (text : string)
| ImGui_Button (label : string)
| ImGui_End
| ImGui_Render
| ImGui_GetDrawData
| ImGui_ImplOpenGL3_RenderDrawData.

(** ** The Detail objects and the heap *)

(** The [std::function] held by [UIContext::Detail::_run] is the lambda
    [[this](ApplicationContextBase& ac) { Run(ac); }]; the virtual call
    lands in the one class that derives from [UIContext]. *)
Inductive UIClass := GusteauChapter1UI.

Module UIContext_Detail.
Record t := mk {
  _window : ptr;
  _context : ptr;
  _window_name : string;
  _run : option UIClass
}.
End UIContext_Detail.

Inductive Detail :=
| StateContext_Detail
| RenderContext_Detail
| GraphicsContext_Detail
| UIContext_Detail_obj (d : UIContext_Detail.t).

Record World := mkWorld {
  heap : gmap addr Detail;
  calls : list Call
}.

Definition empty_world : World := mkWorld ∅ [].

(** ** Computations *)

Inductive Exn := std_runtime_error (what : string).

Inductive Result (A : Type) :=
| Ok (a : A) (w : World)
| Throw (e : Exn) (w : World)
| Undefined.
Arguments Ok {A} a w.
Arguments Throw {A} e w.
Arguments Undefined {A}.

Definition M (A : Type) : Type := World -> Result A.

Definition ret {A} (a : A) : M A := fun w => Ok a w.

Definition bind {A B} (c : M A) (k : A -> M B) : M B :=
  fun w =>
    match c w with
    | Ok a w' => k a w'
    | Throw e w' => Throw e w'
    | Undefined => Undefined
    end.

Notation "x <- c ;; k" := (bind c (fun x => k))
  (at level 100, c at next level, right associativity).
Notation "c ;;; k" := (bind c (fun _ => k))
  (at level 100, right associativity).

Definition call (c : Call) : M unit :=
  fun w => Ok tt (mkWorld (heap w) (calls w ++ [c])).

Definition throw {A} (e : Exn) : M A := fun w => Throw e w.

Definition undefined {A} : M A := fun _ => Undefined.

(** [new Detail]: the object is placed at an address not in use. *)
Definition new (d : Detail) : M ptr :=
  fun w =>
    let a := fresh (dom (heap w)) in
    Ok (Some a) (mkWorld (<[a := d]> (heap w)) (calls w)).

(** [delete p]: nothing for [nullptr], else the object is released. *)
Definition delete_ (p : ptr) : M unit :=
  fun w =>
    match p with
    | None => Ok tt w
    | Some a => Ok tt (mkWorld (delete a (heap w)) (calls w))
    end.

(** ** The context objects *)

Module StateContext.
Record t := mk { m_ : ptr }.
End StateContext.

Module RenderContext.
Record t := mk { m_ : ptr }.
End RenderContext.

Module GraphicsContext.
Record t := mk { m_ : ptr }.
End GraphicsContext.

Module GLFWGraphicsContext.
Record t := mk { base : GraphicsContext.t; _window : ptr }.
End GLFWGraphicsContext.

(** What a [GraphicsContext&] can refer to: [GraphicsContext] has a public
    constructor and one derived class. *)
Inductive GraphicsContextObj :=
| PlainGraphicsContext (g : GraphicsContext.t)
| GLFWGraphicsContextObj (g : GLFWGraphicsContext.t).

Definition dynamic_cast_GLFWGraphicsContext (context : GraphicsContextObj)
  : option GLFWGraphicsContext.t :=
  match context with
  | PlainGraphicsContext _ => None
  | GLFWGraphicsContextObj g => Some g
  end.

Definition GraphicsContext_of (context : GraphicsContextObj) : GraphicsContext.t :=
  match context with
  | PlainGraphicsContext g => g
  | GLFWGraphicsContextObj g => GLFWGraphicsContext.base g
  end.

Module UIContext.
Record t := mk { m_ : ptr; dynamic_type : UIClass }.
End UIContext.

(** [std::unique_ptr<T>] and [std::shared_ptr<T>]: empty, or the object. *)
Definition unique_ptr (T : Type) := option T.
Definition shared_ptr (T : Type) := option T.

Module ApplicationContextBase.
Record t := mk {
  join_now : bool;
  ui : shared_ptr UIContext.t
}.
End ApplicationContextBase.

(** [ApplicationContext] derives from [ApplicationContextBase] and declares
    a [join_now] of its own (line 163), next to the inherited one. *)
Module ApplicationContext.
Record t := mk {
  base : ApplicationContextBase.t;
  root_graphics_context : GraphicsContextObj;
  state : StateContext.t;
  render : RenderContext.t;
  join_now : bool
}.
End ApplicationContext.

(** Member access is resolved on the static type of the expression:
    through an [ApplicationContextBase&] or a
    [shared_ptr<ApplicationContextBase>] the name [join_now] is the base
    member, through an [ApplicationContext&] it is the derived member,
    which hides the inherited one. *)
Inductive StaticType := as_ApplicationContextBase | as_ApplicationContext.

Definition read_join_now (ty : StaticType) (ac : ApplicationContext.t) : bool :=
  match ty with
  | as_ApplicationContextBase =>
      ApplicationContextBase.join_now (ApplicationContext.base ac)
  | as_ApplicationContext => ApplicationContext.join_now ac
  end.

Definition assign_join_now (ty : StaticType) (v : bool)
  (ac : ApplicationContext.t) : ApplicationContext.t :=
  match ty with
  | as_ApplicationContextBase =>
      ApplicationContext.mk
        (ApplicationContextBase.mk v
           (ApplicationContextBase.ui (ApplicationContext.base ac)))
        (ApplicationContext.root_graphics_context ac)
        (ApplicationContext.state ac)
        (ApplicationContext.render ac)
        (ApplicationContext.join_now ac)
  | as_ApplicationContext =>
      ApplicationContext.mk
        (ApplicationContext.base ac)
        (ApplicationContext.root_graphics_context ac)
        (ApplicationContext.state ac)
        (ApplicationContext.render ac)
        v
  end.

(** ** What the environment answers *)

(** During start-up. *)
Record InitEnv := mkInitEnv {
  APPLE : bool;                       (* #if __APPLE__ *)
  glfwInit_result : Z;                (* int glfwInit() *)
  root_window : ptr;                  (* glfwCreateWindow, line 310 *)
  GLEW_VERSION_4_1 : bool;
  glProgramParameteri : ptr;          (* the loaded entry point, or null *)
  renderer : string;                  (* glGetString(GL_RENDERER) *)
  version : string;                   (* glGetString(GL_VERSION) *)
  ui_window : ptr;                    (* glfwCreateWindow, line 384 *)
  imgui_context : ptr                 (* ImGui::CreateContext() *)
}.

(** During one pass of [UIContext::Detail::Render]. *)
Record FrameEnv := mkFrameEnv {
  prevContext : ptr;                  (* ImGui::GetCurrentContext() *)
  fb_w : Z;                           (* glfwGetFramebufferSize *)
  fb_h : Z;
  Quit_pressed : bool                 (* ImGui::Button("Quit") *)
}.

(** ** Constructors, destructors and factory functions *)

(** Lines 531-532. *)
Definition StateContext_ctor : M StateContext.t :=
  p <- new StateContext_Detail ;;
  ret (StateContext.mk p).

(** Lines 534-537. *)
Definition StateContext_dtor (s : StateContext.t) : M unit :=
  delete_ (StateContext.m_ s).

(** Lines 544-545. *)
Definition RenderContext_ctor : M RenderContext.t :=
  p <- new RenderContext_Detail ;;
  ret (RenderContext.mk p).

(** Lines 547-550. *)
Definition RenderContext_dtor (r : RenderContext.t) : M unit :=
  delete_ (RenderContext.m_ r).

(** Lines 279-282. *)
Definition GraphicsContext_ctor : M GraphicsContext.t :=
  p <- new GraphicsContext_Detail ;;
  ret (GraphicsContext.mk p).

(** Lines 284-287. *)
Definition GraphicsContext_dtor (g : GraphicsContext.t) : M unit :=
  delete_ (GraphicsContext.m_ g).

(** Lines 254-262. *)
Definition setGlfwFlags (apple : bool) : M unit :=
  call (glfwWindowHint GLFW_CONTEXT_VERSION_MAJOR (IntValue 4)) ;;;
  call (glfwWindowHint GLFW_CONTEXT_VERSION_MINOR (IntValue 3)) ;;;
  if apple then
    call (glfwWindowHint GLFW_OPENGL_PROFILE GLFW_OPENGL_CORE_PROFILE) ;;;
    call (glfwWindowHint GLFW_OPENGL_FORWARD_COMPAT GL_TRUE)
  else ret tt.

Definition when (b : bool) (c : M unit) : M unit :=
  if b then c else ret tt.

(** Lines 301-334. The base sub-object is constructed first; when the
    body throws, unwinding destroys it again. *)
Definition GLFWGraphicsContext_ctor (env : InitEnv) : M GLFWGraphicsContext.t :=
  base <- GraphicsContext_ctor ;;
  call glfwSetErrorCallback ;;;
  call glfwInit ;;;
  if glfwInit_result env =? 0 then
    GraphicsContext_dtor base ;;;
    throw (std_runtime_error "Could not initialize glfw")
  else
    setGlfwFlags (APPLE env) ;;;
    call (glfwWindowHint GLFW_VISIBLE GLFW_FALSE) ;;;
    call (glfwCreateWindow 16 16 "Root graphics context" nullptr nullptr) ;;;
    let window := root_window env in
    call (glfwMakeContextCurrent window) ;;;
    call (glfwSwapInterval 1) ;;;
    call (set_glewExperimental GL_TRUE) ;;;
    call glewInit ;;;
    when (negb (GLEW_VERSION_4_1 env))
      (call (std_cerr "glew didn't init properly")) ;;;
    when (is_null (glProgramParameteri env))
      (call (std_cerr "glew didn't init properly")) ;;;
    call (glGetString GL_RENDERER) ;;;
    call (glGetString GL_VERSION) ;;;
    call (std_cout ("OpenGL Renderer: " +:+ renderer env)) ;;;
    call (std_cout ("OpenGL Version: " +:+ version env)) ;;;
    call (glfwMakeContextCurrent nullptr) ;;;
    ret (GLFWGraphicsContext.mk base window).

(** Lines 336-340, followed by the base destructor. *)
Definition GLFWGraphicsContext_dtor (g : GLFWGraphicsContext.t) : M unit :=
  when (negb (is_null (GLFWGraphicsContext._window g)))
    (call (glfwDestroyWindow (GLFWGraphicsContext._window g))) ;;;
  GraphicsContext_dtor (GLFWGraphicsContext.base g).

(** Lines 350-353: [std::make_unique] never yields an empty pointer. *)
Definition CreateRootGraphicsContext (env : InitEnv)
  : M (unique_ptr GraphicsContextObj) :=
  g <- GLFWGraphicsContext_ctor env ;;
  ret (Some (GLFWGraphicsContextObj g)).

(** Lines 374-406. [gc->_window] dereferences the result of the
    [dynamic_cast] unchecked. *)
Definition UIContext_Detail_ctor (env : InitEnv) (context : GraphicsContextObj)
  (run : option UIClass) (window_name : string) (width height : Z)
  : M UIContext_Detail.t :=
  setGlfwFlags (APPLE env) ;;;
  call (glfwWindowHint GLFW_VISIBLE GLFW_TRUE) ;;;
  match dynamic_cast_GLFWGraphicsContext context with
  | None => undefined
  | Some gc =>
      call (glfwCreateWindow width height window_name nullptr
              (GLFWGraphicsContext._window gc)) ;;;
      let _window := ui_window env in
      call (glfwMakeContextCurrent _window) ;;;
      call IMGUI_CHECKVERSION ;;;
      call ImGui_CreateContext ;;;
      let _context := imgui_context env in
      call ImGui_GetIO ;;;
      call ImGui_StyleColorsDark ;;;
      call (ImGui_ImplGlfw_InitForOpenGL _window true) ;;;
      call (ImGui_ImplOpenGL3_Init "#version 150") ;;;
      call (glfwMakeContextCurrent nullptr) ;;;
      ret (UIContext_Detail.mk _window _context window_name run)
  end.

(** Lines 499-503, for an object whose dynamic type is [cls]. *)
Definition UIContext_ctor (env : InitEnv) (cls : UIClass)
  (context : GraphicsContextObj) (window_name : string) (width height : Z)
  : M UIContext.t :=
  d <- UIContext_Detail_ctor env context (Some cls) window_name width height ;;
  p <- new (UIContext_Detail_obj d) ;;
  ret (UIContext.mk p cls).

(** Lines 564-567. *)
Definition GusteauChapter1UI_ctor (env : InitEnv) (gc : GraphicsContextObj)
  (window_name : string) (width height : Z) : M UIContext.t :=
  UIContext_ctor env GusteauChapter1UI gc window_name width height.

(** Lines 579-583. *)
Definition CreateUIContext (env : InitEnv) (gc : GraphicsContextObj)
  : M (shared_ptr UIContext.t) :=
  ui <- GusteauChapter1UI_ctor env gc "gusteau" 1024 1024 ;;
  ret (Some ui).

(** Line 110 with the default member initializers of lines 113-114. *)
Definition ApplicationContextBase_ctor : M ApplicationContextBase.t :=
  ret (ApplicationContextBase.mk false None).

(** Lines 149-153: base, then the members in declaration order, then the
    body. *)
Definition ApplicationContext_ctor (gc : GraphicsContextObj)
  (ui_ : shared_ptr UIContext.t) : M ApplicationContext.t :=
  b <- ApplicationContextBase_ctor ;;
  state <- StateContext_ctor ;;
  render <- RenderContext_ctor ;;
  let join_now := false in
  ret (ApplicationContext.mk
         (ApplicationContextBase.mk (ApplicationContextBase.join_now b) ui_)
         gc state render join_now).

(** Lines 166-169. *)
Definition CreateApplicationContext (gc : GraphicsContextObj)
  (ui : shared_ptr UIContext.t) : M (shared_ptr ApplicationContext.t) :=
  ac <- ApplicationContext_ctor gc ui ;;
  ret (Some ac).

(** Lines 408-417. *)
Definition UIContext_Detail_dtor (d : UIContext_Detail.t) : M unit :=
  call ImGui_ImplOpenGL3_Shutdown ;;;
  call ImGui_ImplGlfw_Shutdown ;;;
  call ImGui_DestroyContext ;;;
  call (glfwDestroyWindow (UIContext_Detail._window d)) ;;;
  call glfwTerminate.

(** The object [m_] points to; reading through a null or dangling pointer
    is undefined. *)
Definition deref_UIContext_Detail (p : ptr) : M (addr * UIContext_Detail.t) :=
  fun w =>
    match p with
    | None => Undefined
    | Some a =>
        match heap w !! a with
        | Some (UIContext_Detail_obj d) => Ok (a, d) w
        | _ => Undefined
        end
    end.

(** Lines 505-508. *)
Definition UIContext_dtor (u : UIContext.t) : M unit :=
  match UIContext.m_ u with
  | None => ret tt
  | Some _ =>
      ad <- deref_UIContext_Detail (UIContext.m_ u) ;;
      UIContext_Detail_dtor (snd ad) ;;;
      delete_ (UIContext.m_ u)
  end.

(** ** The UI render pass *)

(** Lines 419-436. *)
Definition ActivateContext (d : UIContext_Detail.t) (f : FrameEnv) : M unit :=
  call ImGui_GetCurrentContext ;;;
  let prev := prevContext f in
  let _context := UIContext_Detail._context d in
  if bool_decide (prev = _context) then ret tt
  else
    (if negb (is_null prev) then
       if is_null _context then undefined
       else
         call (copy_Style _context prev) ;;;
         call (copy_KeyMap _context prev) ;;;
         call (copy_IniFilename _context prev) ;;;
         call (copy_RenderDrawListsFn _context prev) ;;;
         call (copy_Initialized _context prev)
     else ret tt) ;;;
    call (ImGui_SetCurrentContext _context).

(** Lines 463-470. *)
Definition GraphicsWindow_flags : list ImGuiWindowFlag :=
  [ ImGuiWindowFlags_NoTitleBar; ImGuiWindowFlags_NoResize;
    ImGuiWindowFlags_NoMove; ImGuiWindowFlags_NoCollapse;
    ImGuiWindowFlags_NoBringToFrontOnFocus;
    ImGuiWindowFlags_NoFocusOnAppearing;
    ImGuiWindowFlags_NoScrollbar; ImGuiWindowFlags_NoScrollWithMouse ].

(** Lines 569-576. The parameter is an [ApplicationContext&], so
    [ac.join_now] names the member declared at line 163. *)
Definition GusteauChapter1UI_Run (f : FrameEnv) (ac : ApplicationContext.t)
  : M ApplicationContext.t :=
  call (ImGui_Text "Hello world") ;;;
  call (ImGui_Button "Quit") ;;;
  if Quit_pressed f then ret (assign_join_now as_ApplicationContext true ac)
  else ret ac.

(** The statements of lines 571-575 with [ac] seen under the static type
    [ty]; at [as_ApplicationContext] this is [GusteauChapter1UI_Run]. *)
Definition GusteauChapter1UI_Run_at (ty : StaticType) (f : FrameEnv)
  (ac : ApplicationContext.t) : M ApplicationContext.t :=
  call (ImGui_Text "Hello world") ;;;
  call (ImGui_Button "Quit") ;;;
  if Quit_pressed f then ret (assign_join_now ty true ac)
  else ret ac.

(** How far a loop got on the frames it was given. *)
Inductive Engine (A : Type) :=
| Returned (a : A)
| Running (a : A).
Arguments Returned {A} a.
Arguments Running {A} a.

Section Reading.

(** The source is not consistent about the function that the lambda of
    line 501 reaches. The lambda calls [Run(ac)] on an
    [ApplicationContextBase&]; [UIContext::Run] takes that type (line 126)
    and is pure. Line 569 is marked [override], which names lines 569-576
    as the overrider and requires the parameter type of line 126, yet it
    writes the parameter as [ApplicationContext&], which overrides nothing.
    [Run_parameter] is the static type under which the overrider's body
    sees its argument: [as_ApplicationContextBase] as line 126 and the
    [override] specifier have it, [as_ApplicationContext] as the parameter
    list of line 569 has it. What follows is stated for either reading. *)
Variable Run_parameter : StaticType.

(** The virtual call [Run(ac)] made by the stored lambda. *)
Definition UIContext_Run (cls : UIClass) (f : FrameEnv)
  (ac : ApplicationContext.t) : M ApplicationContext.t :=
  match cls with
  | GusteauChapter1UI => GusteauChapter1UI_Run_at Run_parameter f ac
  end.

(** Lines 438-495; [this] is the address of the [Detail]. The parameter is
    an [ApplicationContextBase&], so [context.join_now] names the member
    declared at line 113. *)
Definition UIContext_Detail_Render (this : addr) (d : UIContext_Detail.t)
  (f : FrameEnv) (context : ApplicationContext.t) : M ApplicationContext.t :=
  let _window := UIContext_Detail._window d in
  if is_null _window || read_join_now as_ApplicationContextBase context
  then ret context
  else
    call (glfwMakeContextCurrent _window) ;;;
    ActivateContext d f ;;;
    call (glfwGetFramebufferSize _window) ;;;
    let w := fb_w f in
    let h := fb_h f in
    call ImGui_GetIO ;;;
    call (set_DisplaySize w h) ;;;
    call ImGui_ImplOpenGL3_NewFrame ;;;
    call ImGui_ImplGlfw_NewFrame ;;;
    call ImGui_NewFrame ;;;
    call (ImGui_SetNextWindowPos 0 0) ;;;
    call (ImGui_SetNextWindowSize w h) ;;;
    call (ImGui_Begin_GraphicsWindow this GraphicsWindow_flags) ;;;
    call (ImGui_SetWindowFontScale lit_1f) ;;;
    call (glViewport 0 0 w h) ;;;
    call (glClearColor_ImColor 1 0 0 1) ;;;
    call glClear_color_and_depth ;;;
    context' <- match UIContext_Detail._run d with
                | Some cls => UIContext_Run cls f context
                | None => ret context
                end ;;
    call ImGui_End ;;;
    call ImGui_Render ;;;
    call ImGui_GetDrawData ;;;
    call ImGui_ImplOpenGL3_RenderDrawData ;;;
    call (glfwSwapBuffers _window) ;;;
    ret context'.

(** Line 510. *)
Definition UIContext_Render (u : UIContext.t) (f : FrameEnv)
  (context : ApplicationContext.t) : M ApplicationContext.t :=
  ad <- deref_UIContext_Detail (UIContext.m_ u) ;;
  UIContext_Detail_Render (fst ad) (snd ad) f context.

(** ** The engines *)

(** Line 157. *)
Definition ApplicationContext_Update (context : ApplicationContext.t)
  : M ApplicationContext.t :=
  ret context.

(** Line 539. *)
Definition StateEngine (context : ApplicationContext.t)
  : M ApplicationContext.t :=
  ret context.

(** Line 552. *)
Definition RenderEngine (context : ApplicationContext.t)
  : M ApplicationContext.t :=
  ret context.

(** The argument of line 522, [1.f / 24.f]. *)
Definition UIEngine_timeout : spec_float := float_div lit_1f lit_24f.

(** Lines 522-524, the body of the loop. [context->ui->Render] goes
    through the [shared_ptr] unchecked. *)
Definition UIEngine_body (f : FrameEnv) (context : ApplicationContext.t)
  : M ApplicationContext.t :=
  call (glfwWaitEventsTimeout UIEngine_timeout) ;;;
  context' <- match ApplicationContextBase.ui (ApplicationContext.base context) with
              | None => undefined
              | Some u => UIContext_Render u f context
              end ;;
  ApplicationContext_Update context'.

(** Lines 514-526. One [FrameEnv] is consumed per iteration; [Running]
    says the loop is at its head, the condition holds, and the frames are
    used up. *)
Fixpoint UIEngine (frames : list FrameEnv) (context : ApplicationContext.t)
  : M (Engine ApplicationContext.t) :=
  if read_join_now as_ApplicationContextBase context
  then ret (Returned context)
  else
    match frames with
    | [] => ret (Running context)
    | f :: frames' =>
        context' <- UIEngine_body f context ;;
        UIEngine frames' context'
    end.

(** ** main *)

(** The destructor of [ApplicationContext]: members in reverse order. *)
Definition ApplicationContext_dtor (ac : ApplicationContext.t) : M unit :=
  RenderContext_dtor (ApplicationContext.render ac) ;;;
  StateContext_dtor (ApplicationContext.state ac).

Inductive MainOutcome :=
| Exited (code : Z)
| NotExited.

(** Lines 207-223, the [try] block. The two engine threads run bodies that
    touch nothing, so their interleaving with the main thread is immaterial
    and they are run where they are spawned. *)
Definition main_try (env : InitEnv) (frames : list FrameEnv) : M MainOutcome :=
  root_graphics_context <- CreateRootGraphicsContext env ;;
  match root_graphics_context with
  | None => undefined
  | Some gc =>
      ui_context <- CreateUIContext env gc ;;
      app_context <- CreateApplicationContext gc ui_context ;;
      match app_context with
      | None => undefined
      | Some ac =>
          ac1 <- StateEngine ac ;;
          ac2 <- RenderEngine ac1 ;;
          r <- UIEngine frames ac2 ;;
          match r with
          | Running _ => ret NotExited
          | Returned ac3 =>
              ApplicationContext_dtor ac3 ;;;
              match ui_context with
              | Some u => UIContext_dtor u
              | None => ret tt
              end ;;;
              match dynamic_cast_GLFWGraphicsContext gc with
              | Some g => GLFWGraphicsContext_dtor g
              | None => GraphicsContext_dtor (GraphicsContext_of gc)
              end ;;;
              ret (Exited 0)
          end
      end
  end.

(** Lines 205-229. *)
Definition main (env : InitEnv) (frames : list FrameEnv) : M MainOutcome :=
  fun w =>
    match main_try env frames w with
    | Throw (std_runtime_error what) w' =>
        (call (std_cerr ("Unexpected termination due to " +:+ what)) ;;;
         ret (Exited 1)) w'
    | r => r
    end.

(** ** Vocabulary of the properties *)

(** What the quit handler of line 574 does to the context. *)
Definition quit_handler (pressed : bool) (ac : ApplicationContext.t)
  : ApplicationContext.t :=
  if pressed then assign_join_now as_ApplicationContext true ac else ac.

(** What the quit handler does to the context when it is reached through
    the lambda. *)
Definition Run_store (pressed : bool) (ac : ApplicationContext.t)
  : ApplicationContext.t :=
  if pressed then assign_join_now Run_parameter true ac else ac.

(** The operations that run on the application context once it is built:
    the three engines, the loop body of [UIEngine], and the functions the
    loop body calls. *)
Inductive Operation :=
| op_StateEngine
| op_RenderEngine
| op_Update
| op_Run (cls : UIClass) (f : FrameEnv)
| op_Render (u : UIContext.t) (f : FrameEnv)
| op_UIEngine_body (f : FrameEnv).

Definition run_op (op : Operation) : ApplicationContext.t -> M ApplicationContext.t :=
  match op with
  | op_StateEngine => StateEngine
  | op_RenderEngine => RenderEngine
  | op_Update => ApplicationContext_Update
  | op_Run cls f => UIContext_Run cls f
  | op_Render u f => UIContext_Render u f
  | op_UIEngine_body f => UIEngine_body f
  end.

(** Whether the operation runs the quit handler with the button pressed. *)
Definition op_Quit_pressed (op : Operation) : bool :=
  match op with
  | op_Run _ f | op_Render _ f | op_UIEngine_body f => Quit_pressed f
  | _ => false
  end.

Definition ProgramState : Type := ApplicationContext.t * World.

Definition program_step (s s' : ProgramState) : Prop :=
  exists op, run_op op (fst s) (snd s) = Ok (fst s') (snd s').

(** The states the program can be in after [CreateApplicationContext]. *)
Definition reachable (s : ProgramState) : Prop :=
  exists gc ui w0 ac w,
    CreateApplicationContext gc ui w0 = Ok (Some ac) w
    /\ rtc program_step (ac, w) s.

(** [only_calls c]: when [c] returns, it has left the heap as it was and
    has added calls after those already made. *)
Definition only_calls {A} (c : M A) : Prop :=
  forall w a w',
    c w = Ok a w' -> heap w' = heap w /\ exists cs, calls w' = calls w ++ cs.

Definition exits_normally (r : Result MainOutcome) : bool :=
  match r with
  | Ok (Exited 0) _ => true
  | _ => false
  end.

Definition is_Returned {A} (r : Result (Engine A)) : bool :=
  match r with
  | Ok (Returned _) _ => true
  | _ => false
  end.

(** Kinds of calls, and how many of a kind a list holds. *)
Definition is_wait (c : Call) : bool :=
  match c with glfwWaitEventsTimeout _ => true | _ => false end.

Definition is_NewFrame (c : Call) : bool :=
  match c with ImGui_NewFrame => true | _ => false end.

Definition is_Begin (c : Call) : bool :=
  match c with ImGui_Begin_GraphicsWindow _ _ => true | _ => false end.

Definition is_End (c : Call) : bool :=
  match c with ImGui_End => true | _ => false end.

Definition is_Render (c : Call) : bool :=
  match c with ImGui_Render => true | _ => false end.

Definition is_SwapBuffers (c : Call) : bool :=
  match c with glfwSwapBuffers _ => true | _ => false end.

Fixpoint count_calls (p : Call -> bool) (cs : list Call) : nat :=
  match cs with
  | [] => 0%nat
  | c :: cs' => ((if p c then 1 else 0) + count_calls p cs')%nat
  end.

(** A list of calls none of which waits or belongs to the frame protocol. *)
Definition no_frame_calls (cs : list Call) : Prop :=
  count_calls is_wait cs = 0%nat
  /\ count_calls is_NewFrame cs = 0%nat
  /\ count_calls is_Begin cs = 0%nat
  /\ count_calls is_End cs = 0%nat
  /\ count_calls is_Render cs = 0%nat
  /\ count_calls is_SwapBuffers cs = 0%nat.

(** The test of line 440, negated: whether [Render] goes on to draw. *)
Definition draws_frame (d : UIContext_Detail.t) (ac : ApplicationContext.t)
  : bool :=
  negb (is_null (UIContext_Detail._window d)
        || read_join_now as_ApplicationContextBase ac).

(** [never_throws c]: no C++ exception leaves [c]. *)
Definition never_throws {A} (c : M A) : Prop :=
  forall w e w', c w <> Throw e w'.

(** ** A concrete run, used to exercise the statements *)

Definition env_ok : InitEnv :=
  mkInitEnv false 1 (Some 100%positive) true (Some 7%positive)
    "renderer" "4.3" (Some 200%positive) (Some 300%positive).

Definition env_no_glfw : InitEnv :=
  mkInitEnv false 0 None false None "" "" None None.

Definition frame (pressed : bool) : FrameEnv :=
  mkFrameEnv (Some 300%positive) 640 480 pressed.

(** Lines 207-209 of [main]. *)
Definition startup (env : InitEnv) : M (shared_ptr ApplicationContext.t) :=
  root_graphics_context <- CreateRootGraphicsContext env ;;
  match root_graphics_context with
  | None => undefined
  | Some gc =>
      ui_context <- CreateUIContext env gc ;;
      CreateApplicationContext gc ui_context
  end.

Definition example_Detail : UIContext_Detail.t :=
  UIContext_Detail.mk (Some 200%positive) (Some 300%positive) "gusteau"
    (Some GusteauChapter1UI).

Definition example_heap : gmap addr Detail :=
  <[4%positive := RenderContext_Detail]>
    (<[3%positive := StateContext_Detail]>
       (<[2%positive := UIContext_Detail_obj example_Detail]>
          (<[1%positive := GraphicsContext_Detail]> ∅))).

Definition example_world : World := mkWorld example_heap [].

Definition example_context : ApplicationContext.t :=
  ApplicationContext.mk
    (ApplicationContextBase.mk false
       (Some (UIContext.mk (Some 2%positive) GusteauChapter1UI)))
    (GLFWGraphicsContextObj
       (GLFWGraphicsContext.mk (GraphicsContext.mk (Some 1%positive))
          (Some 100%positive)))
    (StateContext.mk (Some 3%positive))
    (RenderContext.mk (Some 4%positive))
    false.

(** The example world when the UI window could not be created. *)
Definition example_world_no_window : World :=
  mkWorld
    (<[2%positive :=
         UIContext_Detail_obj
           (UIContext_Detail.mk None (Some 300%positive) "gusteau"
              (Some GusteauChapter1UI))]> example_heap)
    [].

(** * Properties *)

(** ** Computations: basic equations *)

Lemma bind_Ok {A B} (c : M A) (k : A -> M B) (w w1 : World) (a : A) :
  c w = Ok a w1 -> bind c k w = k a w1.
Proof. intros H. unfold bind. now rewrite H. Qed.

Lemma bind_Ok_inv {A B} (c : M A) (k : A -> M B) (w w' : World) (b : B) :
  bind c k w = Ok b w' ->
  exists a w1, c w = Ok a w1 /\ k a w1 = Ok b w'.
Proof.
  unfold bind. destruct (c w) as [a w1| |]; intros H; try discriminate.
  now exists a, w1.
Qed.

Lemma call_Ok (c : Call) (w : World) :
  call c w = Ok tt (mkWorld (heap w) (calls w ++ [c])).
Proof. reflexivity. Qed.

Ltac inv_bind H :=
  repeat lazymatch type of H with
  | bind _ _ _ = Ok _ _ =>
      let a := fresh "a" in
      let w := fresh "w" in
      let H1 := fresh "Hc" in
      apply bind_Ok_inv in H as (a & w & H1 & H)
  end.

(** The example context is the one start-up builds. *)
Example startup_example :
  exists cs, startup env_ok empty_world
             = Ok (Some example_context) (mkWorld example_heap cs).
Proof. eexists. vm_compute. reflexivity. Qed.

(** ** The heap: what [new] gives *)

Lemma new_fresh (d : Detail) (w : World) :
  exists a,
    new d w = Ok (Some a) (mkWorld (<[a := d]> (heap w)) (calls w))
    /\ heap w !! a = None.
Proof.
  exists (fresh (dom (heap w))). split; [reflexivity|].
  apply not_elem_of_dom. apply is_fresh.
Qed.

Lemma new_allocates (d : Detail) (w : World) :
  exists a w',
    new d w = Ok (Some a) w'
    /\ heap w !! a = None
    /\ heap w' !! a = Some d
    /\ calls w' = calls w.
Proof.
  destruct (new_fresh d w) as (a & Hn & Hf).
  eexists a, _. split; [exact Hn|]. split; [exact Hf|]. split; [|reflexivity].
  simpl. apply lookup_insert_eq.
Qed.

(** ** Computations that only make calls *)

Lemma only_calls_ret {A} (a : A) : only_calls (ret a).
Proof.
  intros w a' w' H. inversion H; subst. split; [reflexivity|].
  exists []. now rewrite app_nil_r.
Qed.

Lemma only_calls_call (c : Call) : only_calls (call c).
Proof.
  intros w a w' H. inversion H; subst. split; [reflexivity|]. now exists [c].
Qed.

Lemma only_calls_undefined {A} : only_calls (@undefined A).
Proof. intros w a w' H. discriminate. Qed.

Lemma only_calls_bind {A B} (c : M A) (k : A -> M B) :
  only_calls c -> (forall a, only_calls (k a)) -> only_calls (bind c k).
Proof.
  intros Hc Hk w b w' H.
  apply bind_Ok_inv in H as (a & w1 & H1 & H2).
  apply Hc in H1 as (Hh1 & cs1 & E1). apply Hk in H2 as (Hh2 & cs2 & E2).
  split; [congruence|].
  exists (cs1 ++ cs2). now rewrite E2, E1, app_assoc.
Qed.

Lemma only_calls_deref (p : ptr) : only_calls (deref_UIContext_Detail p).
Proof.
  intros w a w' H. unfold deref_UIContext_Detail in H.
  destruct p as [x|]; [|discriminate].
  destruct (heap w !! x) as [[| | |d]|]; try discriminate.
  inversion H; subst. split; [reflexivity|]. exists []. now rewrite app_nil_r.
Qed.

Create HintDb only_calls_db.
#[local] Hint Resolve only_calls_ret only_calls_call only_calls_undefined
  only_calls_deref : only_calls_db.

Ltac only_calls_tac :=
  cbv zeta;
  repeat lazymatch goal with
  | |- only_calls (bind _ _) => apply only_calls_bind; [| intros ? ]
  | |- only_calls (if ?b then _ else _) => destruct b
  | |- only_calls (match ?x with _ => _ end) => destruct x
  | |- only_calls _ => solve [auto with only_calls_db]
  end.

Lemma only_calls_ActivateContext d f : only_calls (ActivateContext d f).
Proof. unfold ActivateContext. only_calls_tac. Qed.

Lemma only_calls_Run cls f ac : only_calls (UIContext_Run cls f ac).
Proof. unfold UIContext_Run, GusteauChapter1UI_Run_at. only_calls_tac. Qed.

#[local] Hint Resolve only_calls_ActivateContext only_calls_Run : only_calls_db.

Lemma only_calls_Detail_Render this d f ac :
  only_calls (UIContext_Detail_Render this d f ac).
Proof. unfold UIContext_Detail_Render. only_calls_tac. Qed.

#[local] Hint Resolve only_calls_Detail_Render : only_calls_db.

Lemma only_calls_Render u f ac : only_calls (UIContext_Render u f ac).
Proof. unfold UIContext_Render. only_calls_tac. Qed.

#[local] Hint Resolve only_calls_Render : only_calls_db.

Lemma only_calls_UIEngine_body f ac : only_calls (UIEngine_body f ac).
Proof.
  unfold UIEngine_body, ApplicationContext_Update. only_calls_tac.
Qed.

Lemma only_calls_run_op op ac : only_calls (run_op op ac).
Proof.
  destruct op; simpl;
    auto using only_calls_UIEngine_body with only_calls_db;
    apply only_calls_ret.
Qed.

(** ** What the operations do to the application context *)

Lemma read_base_quit_handler (b : bool) (ac : ApplicationContext.t) :
  read_join_now as_ApplicationContextBase (quit_handler b ac)
  = read_join_now as_ApplicationContextBase ac.
Proof. now destruct b. Qed.

Lemma read_derived_quit_handler (b : bool) (ac : ApplicationContext.t) :
  read_join_now as_ApplicationContext (quit_handler b ac)
  = b || read_join_now as_ApplicationContext ac.
Proof. now destruct b. Qed.

(** A store of [true] keeps what already reads [true], and write it twice
    is to write it once. *)
Lemma assign_true_keeps (ty ty' : StaticType) (ac : ApplicationContext.t) :
  read_join_now ty' ac = true ->
  read_join_now ty' (assign_join_now ty true ac) = true.
Proof. now destruct ty, ty'. Qed.

Lemma assign_true_twice (ty : StaticType) (ac : ApplicationContext.t) :
  assign_join_now ty true (assign_join_now ty true ac)
  = assign_join_now ty true ac.
Proof. now destruct ty. Qed.

Lemma assign_ui (ty : StaticType) (v : bool) (ac : ApplicationContext.t) :
  ApplicationContextBase.ui
    (ApplicationContext.base (assign_join_now ty v ac))
  = ApplicationContextBase.ui (ApplicationContext.base ac).
Proof. now destruct ty. Qed.

Lemma Run_store_false (ac : ApplicationContext.t) : Run_store false ac = ac.
Proof. reflexivity. Qed.

Lemma Run_store_ui (b : bool) (ac : ApplicationContext.t) :
  ApplicationContextBase.ui (ApplicationContext.base (Run_store b ac))
  = ApplicationContextBase.ui (ApplicationContext.base ac).
Proof. destruct b; [apply assign_ui | reflexivity]. Qed.

Lemma Run_context cls f ac w ac' w' :
  UIContext_Run cls f ac w = Ok ac' w' ->
  ac' = Run_store (Quit_pressed f) ac.
Proof.
  destruct cls. unfold UIContext_Run, GusteauChapter1UI_Run_at. intros H.
  inv_bind H. unfold Run_store.
  destruct (Quit_pressed f); now inversion H.
Qed.

Lemma Detail_Render_context this d f ac w ac' w' :
  UIContext_Detail_Render this d f ac w = Ok ac' w' ->
  ac' = ac \/ ac' = Run_store (Quit_pressed f) ac.
Proof.
  unfold UIContext_Detail_Render. cbv zeta.
  destruct (_ || _); intros H.
  - inversion H; auto.
  - inv_bind H. inversion H; subst; clear H.
    destruct (UIContext_Detail._run d).
    + match goal with Hr : UIContext_Run _ _ _ _ = Ok _ _ |- _ =>
        apply Run_context in Hr as -> end.
      now right.
    + match goal with Hr : ret _ _ = Ok _ _ |- _ => inversion Hr; subst end.
      now left.
Qed.

Lemma Render_context u f ac w ac' w' :
  UIContext_Render u f ac w = Ok ac' w' ->
  ac' = ac \/ ac' = Run_store (Quit_pressed f) ac.
Proof.
  unfold UIContext_Render. intros H. inv_bind H.
  eapply Detail_Render_context; eassumption.
Qed.

Lemma UIEngine_body_context f ac w ac' w' :
  UIEngine_body f ac w = Ok ac' w' ->
  ac' = ac \/ ac' = Run_store (Quit_pressed f) ac.
Proof.
  unfold UIEngine_body, ApplicationContext_Update. intros H. inv_bind H.
  inversion H; subst; clear H.
  destruct (ApplicationContextBase.ui _); [|discriminate].
  eapply Render_context; eassumption.
Qed.

(** Every operation leaves the context as it was, or is the quit handler
    storing [true] in the [join_now] its parameter type names. *)
Lemma run_op_context op ac w ac' w' :
  run_op op ac w = Ok ac' w' ->
  ac' = ac
  \/ (op_Quit_pressed op = true
      /\ ac' = assign_join_now Run_parameter true ac).
Proof.
  assert (Hq : forall f, ac' = ac \/ ac' = Run_store (Quit_pressed f) ac ->
                ac' = ac \/ (Quit_pressed f = true
                   /\ ac' = assign_join_now Run_parameter true ac)).
  { intros f [->| ->]; [now left|]. unfold Run_store.
    destruct (Quit_pressed f); [now right | now left]. }
  destruct op; simpl; intros H.
  - inversion H; now left.
  - inversion H; now left.
  - inversion H; now left.
  - apply Hq. right. eapply Run_context; eassumption.
  - apply Hq. eapply Render_context; eassumption.
  - apply Hq. eapply UIEngine_body_context; eassumption.
Qed.

Lemma program_step_join_now (s s' : ProgramState) (ty : StaticType) :
  program_step s s' ->
  read_join_now ty (fst s) = true -> read_join_now ty (fst s') = true.
Proof.
  intros [op H]. apply run_op_context in H as [->|[_ ->]]; [trivial|].
  apply assign_true_keeps.
Qed.

(** With the parameter of [Run] as line 569 writes it, no operation
    touches the member of [ApplicationContextBase]. *)
Lemma program_step_base_join_now (s s' : ProgramState) :
  Run_parameter = as_ApplicationContext ->
  program_step s s' ->
  read_join_now as_ApplicationContextBase (fst s')
  = read_join_now as_ApplicationContextBase (fst s).
Proof.
  intros E [op H]. apply run_op_context in H as [->|[_ ->]]; [reflexivity|].
  now rewrite E.
Qed.

(** ** The context a constructor leaves *)

Lemma ApplicationContext_ctor_join_now gc ui w ac w' :
  ApplicationContext_ctor gc ui w = Ok ac w' ->
  read_join_now as_ApplicationContextBase ac = false
  /\ read_join_now as_ApplicationContext ac = false
  /\ ApplicationContextBase.ui (ApplicationContext.base ac) = ui.
Proof.
  unfold ApplicationContext_ctor, ApplicationContextBase_ctor. intros H.
  inv_bind H. inversion Hc; subst. now inversion H.
Qed.

(** With the parameter of [Run] as line 569 writes it, the base member is
    [false] in every state the program reaches. *)
Lemma reachable_base_join_now (s : ProgramState) :
  Run_parameter = as_ApplicationContext ->
  reachable s -> read_join_now as_ApplicationContextBase (fst s) = false.
Proof.
  intros E (gc & ui & w0 & ac & w & Hc & Hr).
  unfold CreateApplicationContext in Hc. inv_bind Hc.
  inversion Hc; subst; clear Hc.
  apply ApplicationContext_ctor_join_now in Hc0 as (Hb & _ & _).
  remember (ac, w) as s0 eqn:Es0.
  assert (Hb0 : read_join_now as_ApplicationContextBase (fst s0) = false)
    by now subst.
  clear Es0 Hb. induction Hr as [|x y z Hxy _ IH]; [assumption|].
  apply IH. now rewrite (program_step_base_join_now x y E).
Qed.

(** ** The loop of UIEngine *)

Lemma UIEngine_unfold frames ac w :
  UIEngine frames ac w
  = if read_join_now as_ApplicationContextBase ac
    then Ok (Returned ac) w
    else match frames with
         | [] => Ok (Running ac) w
         | f :: frames' => bind (UIEngine_body f ac) (UIEngine frames') w
         end.
Proof.
  destruct frames; cbn [UIEngine];
    destruct (read_join_now as_ApplicationContextBase ac); reflexivity.
Qed.

Lemma UIEngine_flag_at_exit frames :
  forall ac w,
    match UIEngine frames ac w with
    | Ok (Returned ac') _ =>
        read_join_now as_ApplicationContextBase ac' = true
    | Ok (Running ac') _ =>
        read_join_now as_ApplicationContextBase ac' = false
    | _ => True
    end.
Proof.
  induction frames as [|f frames IH]; intros ac w; rewrite UIEngine_unfold;
    destruct (read_join_now as_ApplicationContextBase ac) eqn:E; trivial.
  unfold bind. destruct (UIEngine_body f ac w); trivial. apply IH.
Qed.

(** With the parameter of [Run] as line 569 writes it, the loop does not
    come back from a context whose base member is [false], whatever the
    frames. *)
Lemma UIEngine_keeps_running frames :
  Run_parameter = as_ApplicationContext ->
  forall ac w,
    read_join_now as_ApplicationContextBase ac = false ->
    is_Returned (UIEngine frames ac w) = false.
Proof.
  intros Er.
  induction frames as [|f frames IH]; intros ac w E; rewrite UIEngine_unfold, E;
    [reflexivity|].
  unfold bind. destruct (UIEngine_body f ac w) as [ac' w'| |] eqn:Hb;
    try reflexivity.
  apply IH. apply UIEngine_body_context in Hb as [->| ->]; [assumption|].
  unfold Run_store. rewrite Er. now destruct (Quit_pressed f).
Qed.

(** ** The two join_now members *)

(** C2: [ApplicationContext] declares a [join_now] of its own, distinct
    from [ApplicationContextBase::join_now]. A store to either member
    leaves the other as it was and is read back from the member stored to.
    In particular the quit handler, which stores through an
    [ApplicationContext&], leaves the member that [UIEngine] reads through
    its [ApplicationContextBase] pointer unchanged. *)
Theorem C2_join_now_members_are_distinct
  (ac : ApplicationContext.t) (v : bool) (f : FrameEnv) (w : World) :
  read_join_now as_ApplicationContextBase
    (assign_join_now as_ApplicationContext v ac)
  = read_join_now as_ApplicationContextBase ac
  /\ read_join_now as_ApplicationContext
       (assign_join_now as_ApplicationContextBase v ac)
     = read_join_now as_ApplicationContext ac
  /\ read_join_now as_ApplicationContext
       (assign_join_now as_ApplicationContext v ac) = v
  /\ read_join_now as_ApplicationContextBase
       (assign_join_now as_ApplicationContextBase v ac) = v
  /\ exists ac' w',
       GusteauChapter1UI_Run f ac w = Ok ac' w'
       /\ read_join_now as_ApplicationContextBase ac'
          = read_join_now as_ApplicationContextBase ac
       /\ read_join_now as_ApplicationContext ac'
          = Quit_pressed f || read_join_now as_ApplicationContext ac.
Proof.
  repeat split.
  unfold GusteauChapter1UI_Run, bind, call, ret.
  destruct (Quit_pressed f); eexists _, _; repeat split.
Qed.

(** On the context start-up builds, pressing Quit makes the two members
    differ. *)
Example Run_example :
  exists ac' w',
    GusteauChapter1UI_Run (frame true) example_context example_world
    = Ok ac' w'
    /\ read_join_now as_ApplicationContext ac' = true
    /\ read_join_now as_ApplicationContextBase ac' = false.
Proof. eexists _, _. repeat split. Qed.

(** ** The engines that do nothing *)

(** C4: [StateEngine], [RenderEngine] and [ApplicationContext::Update]
    return at once, leave every field of the application context as it was
    ([join_now] of either class, [ui], [state], [render],
    [root_graphics_context]), allocate and free nothing, and make no call. *)
Theorem C4_only_the_UI_engine_acts (ac : ApplicationContext.t) (w : World) :
  StateEngine ac w = Ok ac w
  /\ RenderEngine ac w = Ok ac w
  /\ ApplicationContext_Update ac w = Ok ac w.
Proof. repeat split. Qed.

(** ** Which engine polls the flag *)

(** C3, as stated, fails: on the context start-up builds, where both
    [join_now] members are [false], [StateEngine] and [RenderEngine]
    return; so it is not the case that they return only once the flag is
    set. *)
Lemma C3_StateEngine_returns_with_flag_clear :
  read_join_now as_ApplicationContextBase example_context = false
  /\ read_join_now as_ApplicationContext example_context = false
  /\ StateEngine example_context example_world
     = Ok example_context example_world
  /\ RenderEngine example_context example_world
     = Ok example_context example_world
  /\ ~ (forall ac w ac' w',
          StateEngine ac w = Ok ac' w' ->
          read_join_now as_ApplicationContextBase ac' = true).
Proof.
  repeat split.
  intros H.
  specialize (H example_context example_world example_context example_world
                eq_refl).
  discriminate H.
Qed.

(** C3, amended: [StateEngine] and [RenderEngine] return at once without
    reading the flag. [UIEngine] reads [ApplicationContextBase::join_now]
    at the head of every iteration: it returns there when the member is
    [true] and otherwise runs the body and reads again; when it has
    returned the member is [true], and while it is still in the loop the
    member was [false] at the last read. *)
Theorem C3_only_UIEngine_polls_join_now
  (frames : list FrameEnv) (ac : ApplicationContext.t) (w : World) :
  StateEngine ac w = Ok ac w
  /\ RenderEngine ac w = Ok ac w
  /\ UIEngine frames ac w
     = (if read_join_now as_ApplicationContextBase ac
        then Ok (Returned ac) w
        else match frames with
             | [] => Ok (Running ac) w
             | f :: frames' =>
                 bind (UIEngine_body f ac) (UIEngine frames') w
             end)
  /\ match UIEngine frames ac w with
     | Ok (Returned ac') _ =>
         read_join_now as_ApplicationContextBase ac' = true
     | Ok (Running ac') _ =>
         read_join_now as_ApplicationContextBase ac' = false
     | _ => True
     end.
Proof.
  split; [reflexivity|]. split; [reflexivity|]. split.
  - apply UIEngine_unfold.
  - apply UIEngine_flag_at_exit.
Qed.

(** ** The early return of Render *)

(** C8: when the [join_now] that [Render] reads (the member of
    [ApplicationContextBase], the type of its parameter) is already [true],
    and likewise when the window handle of the UI context is null,
    [UIContext::Render] returns at once: no call is made and neither the
    context nor the heap changes. *)
Theorem C8_Render_returns_at_once
  (u : UIContext.t) (f : FrameEnv) (ac : ApplicationContext.t) (w : World)
  (a : addr) (d : UIContext_Detail.t) :
  UIContext.m_ u = Some a ->
  heap w !! a = Some (UIContext_Detail_obj d) ->
  read_join_now as_ApplicationContextBase ac = true
  \/ UIContext_Detail._window d = nullptr ->
  UIContext_Render u f ac w = Ok ac w.
Proof.
  intros Hm Hh Hc.
  unfold UIContext_Render, bind, deref_UIContext_Detail.
  rewrite Hm, Hh. simpl. unfold UIContext_Detail_Render.
  destruct Hc as [-> | ->]; simpl.
  - now rewrite orb_true_r.
  - reflexivity.
Qed.

(** With only the member of [ApplicationContext] set, a frame is still
    rendered. *)
Example Render_after_Quit :
  exists ac' w',
    UIContext_Render (UIContext.mk (Some 2%positive) GusteauChapter1UI)
      (frame false) (quit_handler true example_context) example_world
    = Ok ac' w'
    /\ In (glfwSwapBuffers (Some 200%positive)) (calls w').
Proof.
  eexists _, _. split; [vm_compute; reflexivity|].
  simpl. repeat first [left; reflexivity | right].
Qed.

(** ** join_now never goes back to false *)

(** C6: the one store to a [join_now] is the quit handler's, and it stores
    [true]: every operation of the program leaves the application context
    as it was, or runs with the Quit button pressed and stores [true] in
    the [join_now] member that the parameter type of [Run] names. Hence
    along any run of the program a [join_now] member that reads [true]
    reads [true] ever after. *)
Theorem C6_join_now_set_once_and_kept :
  (forall op ac w ac' w',
      run_op op ac w = Ok ac' w' ->
      ac' = ac
      \/ (op_Quit_pressed op = true
          /\ ac' = assign_join_now Run_parameter true ac))
  /\ (forall (s s' : ProgramState) (ty : StaticType),
         rtc program_step s s' ->
         read_join_now ty (fst s) = true ->
         read_join_now ty (fst s') = true).
Proof.
  split.
  - apply run_op_context.
  - intros s s' ty Hr. induction Hr as [|x y z Hxy _ IH]; [trivial|].
    intros Hx. apply IH. eapply program_step_join_now; eassumption.
Qed.

(** ** Quit does not reach the flag that is polled *)


(** With the parameter of [Run] as line 569 writes it, [main] never
    reaches its [return 0]. *)
Lemma main_try_does_not_exit env frames w code w' :
  Run_parameter = as_ApplicationContext ->
  main_try env frames w = Ok (Exited code) w' -> False.
Proof.
  intros Er. unfold main_try. intros H. inv_bind H.
  match type of H with
  | match ?x with _ => _ end _ = _ => destruct x as [gc|]; [|discriminate]
  end.
  inv_bind H.
  match type of H with
  | match ?x with _ => _ end _ = _ => destruct x as [ac|]; [|discriminate]
  end.
  inv_bind H.
  repeat match goal with
         | Hs : StateEngine _ _ = Ok _ _ |- _ => inversion Hs; subst; clear Hs
         | Hs : RenderEngine _ _ = Ok _ _ |- _ => inversion Hs; subst; clear Hs
         end.
  match goal with
  | Hc : CreateApplicationContext _ _ _ = Ok _ _ |- _ =>
      unfold CreateApplicationContext in Hc; inv_bind Hc;
      inversion Hc; subst; clear Hc
  end.
  match goal with
  | Hc : ApplicationContext_ctor _ _ _ = Ok _ _ |- _ =>
      apply ApplicationContext_ctor_join_now in Hc as (Hb & _ & _)
  end.
  match goal with
  | Hu : UIEngine ?fs ?c ?w0 = Ok ?r _ |- _ =>
      pose proof (UIEngine_keeps_running fs Er c w0 Hb) as Hk;
      rewrite Hu in Hk; destruct r; simpl in Hk; [discriminate|]
  end.
  discriminate H.
Qed.

Lemma main_does_not_exit_normally env frames w :
  Run_parameter = as_ApplicationContext ->
  exits_normally (main env frames w) = false.
Proof.
  intros Er.
  unfold main. destruct (main_try env frames w) as [r w'|e w'|] eqn:E.
  - destruct r as [code|]; [|reflexivity].
    exfalso. eapply main_try_does_not_exit; eassumption.
  - destruct e. reflexivity.
  - reflexivity.
Qed.

(** ** The Detail of a context object *)

Ltac run_calls :=
  cbv [bind call ret throw when undefined heap calls
       dynamic_cast_GLFWGraphicsContext].

Lemma UIContext_Detail_ctor_GLFW env g run window_name width height w :
  exists cs,
    UIContext_Detail_ctor env (GLFWGraphicsContextObj g) run window_name
      width height w
    = Ok (UIContext_Detail.mk (ui_window env) (imgui_context env)
            window_name run)
        (mkWorld (heap w) (calls w ++ cs)).
Proof.
  unfold UIContext_Detail_ctor, setGlfwFlags.
  destruct (APPLE env); run_calls; rewrite <- !app_assoc;
    eexists; reflexivity.
Qed.

(** C7, as stated, fails: right after construction the pointer [m_] of a
    context object is not null. On the empty heap each of the four
    constructors returns an object whose [m_] is the address of a [Detail]
    that is already allocated. *)
Lemma C7_m_is_not_null_after_construction :
  (exists w,
      StateContext_ctor empty_world = Ok (StateContext.mk (Some 1%positive)) w
      /\ heap w !! 1%positive = Some StateContext_Detail)
  /\ (exists w,
         RenderContext_ctor empty_world
         = Ok (RenderContext.mk (Some 1%positive)) w
         /\ heap w !! 1%positive = Some RenderContext_Detail)
  /\ (exists w,
         GraphicsContext_ctor empty_world
         = Ok (GraphicsContext.mk (Some 1%positive)) w
         /\ heap w !! 1%positive = Some GraphicsContext_Detail)
  /\ (exists w,
         UIContext_ctor env_ok GusteauChapter1UI
           (ApplicationContext.root_graphics_context example_context)
           "gusteau" 1024 1024
           (mkWorld (<[1%positive := GraphicsContext_Detail]> ∅) [])
         = Ok (UIContext.mk (Some 2%positive) GusteauChapter1UI) w
         /\ heap w !! 2%positive = Some (UIContext_Detail_obj example_Detail)).
Proof.
  repeat split; eexists; (split; [vm_compute; reflexivity|]);
    vm_compute; reflexivity.
Qed.

(** C7, amended: the [Detail] of a context object is created by its
    constructor, not on first use. In any world, the constructors of
    [StateContext], [RenderContext] and [GraphicsContext] return an object
    whose [m_] is a non-null address that was free before and now holds the
    [Detail]; so does the constructor of [UIContext] when it is given the
    GLFW graphics context, and its [Detail] holds the window, the ImGui
    context, the window name and the [Run] callback. *)
Theorem C7_Detail_is_created_by_the_constructor (w : World) :
  (exists a w',
      StateContext_ctor w = Ok (StateContext.mk (Some a)) w'
      /\ heap w !! a = None
      /\ heap w' !! a = Some StateContext_Detail)
  /\ (exists a w',
         RenderContext_ctor w = Ok (RenderContext.mk (Some a)) w'
         /\ heap w !! a = None
         /\ heap w' !! a = Some RenderContext_Detail)
  /\ (exists a w',
         GraphicsContext_ctor w = Ok (GraphicsContext.mk (Some a)) w'
         /\ heap w !! a = None
         /\ heap w' !! a = Some GraphicsContext_Detail)
  /\ (forall env cls g window_name width height,
         exists a w',
           UIContext_ctor env cls (GLFWGraphicsContextObj g) window_name
             width height w
           = Ok (UIContext.mk (Some a) cls) w'
           /\ heap w !! a = None
           /\ heap w' !! a
              = Some (UIContext_Detail_obj
                        (UIContext_Detail.mk (ui_window env)
                           (imgui_context env) window_name (Some cls)))).
Proof.
  assert (Hnew : forall (d : Detail) (w0 : World) {T} (mk : ptr -> T),
             exists a w',
               bind (new d) (fun p => ret (mk p)) w0 = Ok (mk (Some a)) w'
               /\ heap w0 !! a = None /\ heap w' !! a = Some d).
  { intros d w0 T mk.
    destruct (new_allocates d w0) as (a & w' & Hn & Hf & Hl & _).
    exists a, w'. split; [|now split].
    now rewrite (bind_Ok _ _ _ _ _ Hn). }
  split; [apply Hnew|]. split; [apply Hnew|]. split; [apply Hnew|].
  intros env cls g window_name width height.
  destruct (UIContext_Detail_ctor_GLFW env g (Some cls) window_name width
              height w) as (cs & Hd).
  unfold UIContext_ctor. rewrite (bind_Ok _ _ _ _ _ Hd).
  destruct (Hnew (UIContext_Detail_obj
                    (UIContext_Detail.mk (ui_window env) (imgui_context env)
                       window_name (Some cls)))
              (mkWorld (heap w) (calls w ++ cs)) _
              (fun p => UIContext.mk p cls))
    as (a & w' & Hc & Hf & Hl).
  now exists a, w'.
Qed.

(** ** The root graphics context *)

Lemma GraphicsContext_ctor_allocates (w : World) :
  exists a w',
    GraphicsContext_ctor w = Ok (GraphicsContext.mk (Some a)) w'
    /\ heap w' !! a = Some GraphicsContext_Detail.
Proof.
  destruct (new_allocates GraphicsContext_Detail w)
    as (a & w' & Hn & _ & Hl & _).
  exists a, w'. split; [|exact Hl].
  unfold GraphicsContext_ctor. now rewrite (bind_Ok _ _ _ _ _ Hn).
Qed.

Lemma In_snoc {A} (x : A) (l : list A) : In x (l ++ [x]).
Proof. apply in_or_app. right. now left. Qed.

Lemma In_snoc_other {A} (x y : A) (l : list A) : In x l -> In x (l ++ [y]).
Proof. intros H. apply in_or_app. now left. Qed.

Ltac find_call :=
  repeat first [ apply In_snoc | apply In_snoc_other ].

Lemma GLFWGraphicsContext_dtor_destroys base h w1 :
  exists w2,
    GLFWGraphicsContext_dtor (GLFWGraphicsContext.mk base (Some h)) w1
    = Ok tt w2
    /\ In (glfwDestroyWindow (Some h)) (calls w2).
Proof.
  unfold GLFWGraphicsContext_dtor, GraphicsContext_dtor.
  destruct base as [[x|]]; run_calls; cbv [is_null negb delete_];
    eexists; (split; [reflexivity|]); apply In_snoc.
Qed.

(** C9: [CreateRootGraphicsContext] throws exactly when [glfwInit] answers
    0, and what it throws is the [std::runtime_error] with the message
    [Could not initialize glfw]. Otherwise it returns a non-null pointer to
    a GLFW graphics context whose [Detail] is allocated and whose window is
    the one [glfwCreateWindow] made for the root context; the destructor of
    that object destroys the window. *)
Theorem C9_CreateRootGraphicsContext (env : InitEnv) (w : World) :
  match CreateRootGraphicsContext env w with
  | Throw e w' =>
      glfwInit_result env = 0
      /\ e = std_runtime_error "Could not initialize glfw"
  | Ok p w' =>
      glfwInit_result env <> 0
      /\ exists g a,
          p = Some (GLFWGraphicsContextObj g)
          /\ GLFWGraphicsContext._window g = root_window env
          /\ GLFWGraphicsContext.base g = GraphicsContext.mk (Some a)
          /\ heap w' !! a = Some GraphicsContext_Detail
          /\ In (glfwCreateWindow 16 16 "Root graphics context"
                   nullptr nullptr) (calls w')
          /\ (forall w1,
                 root_window env <> nullptr ->
                 exists w2,
                   GLFWGraphicsContext_dtor g w1 = Ok tt w2
                   /\ In (glfwDestroyWindow (root_window env)) (calls w2))
  | Undefined => False
  end.
Proof.
  destruct (GraphicsContext_ctor_allocates w) as (a & w0 & Hg & Hl).
  unfold CreateRootGraphicsContext, GLFWGraphicsContext_ctor,
    GraphicsContext_dtor, setGlfwFlags.
  destruct (glfwInit_result env =? 0) eqn:E.
  - apply Z.eqb_eq in E. run_calls. rewrite Hg. cbv [delete_]. now split.
  - apply Z.eqb_neq in E.
    destruct (APPLE env), (GLEW_VERSION_4_1 env),
      (is_null (glProgramParameteri env)); run_calls; rewrite Hg;
      cbv [negb];
      (split; [exact E|]); exists (GLFWGraphicsContext.mk
                                     (GraphicsContext.mk (Some a))
                                     (root_window env)), a;
      (split; [reflexivity|]); (split; [reflexivity|]);
      (split; [reflexivity|]); (split; [exact Hl|]);
      (split; [find_call|]);
      intros w1 Hw;
      (destruct (root_window env) as [h|];
       [apply GLFWGraphicsContext_dtor_destroys | now destruct Hw]).
Qed.

(** Both outcomes occur. *)
Example CreateRootGraphicsContext_examples :
  (exists w, CreateRootGraphicsContext env_no_glfw empty_world
             = Throw (std_runtime_error "Could not initialize glfw") w)
  /\ (exists w, CreateRootGraphicsContext env_ok empty_world
                = Ok (Some (ApplicationContext.root_graphics_context
                              example_context)) w).
Proof. split; eexists; vm_compute; reflexivity. Qed.

(** ** One iteration of UIEngine *)

Lemma ActivateContext_returns d f w :
  prevContext f = UIContext_Detail._context d
  \/ prevContext f = nullptr
  \/ UIContext_Detail._context d <> nullptr ->
  exists w', ActivateContext d f w = Ok tt w' /\ heap w' = heap w.
Proof.
  intros Hp. unfold ActivateContext. cbv zeta.
  destruct (bool_decide (prevContext f = UIContext_Detail._context d)) eqn:E.
  - run_calls. eexists. split; reflexivity.
  - apply bool_decide_eq_false in E.
    destruct Hp as [Hp|[Hp|Hp]]; [contradiction| |].
    + rewrite Hp. run_calls. eexists. split; reflexivity.
    + destruct (UIContext_Detail._context d) as [c|]; [|contradiction].
      destruct (prevContext f); run_calls; eexists; split; reflexivity.
Qed.

Lemma Detail_Render_returns this d f ac w :
  prevContext f = UIContext_Detail._context d
  \/ prevContext f = nullptr
  \/ UIContext_Detail._context d <> nullptr ->
  exists ac' w',
    UIContext_Detail_Render this d f ac w = Ok ac' w' /\ heap w' = heap w.
Proof.
  intros Hp. unfold UIContext_Detail_Render. cbv zeta.
  destruct (_ || _); [now exists ac, w|].
  rewrite (bind_Ok _ _ _ _ _ (call_Ok _ _)).
  destruct (ActivateContext_returns d f
              (mkWorld (heap w)
                 (calls w
                  ++ [glfwMakeContextCurrent (UIContext_Detail._window d)]))
              Hp) as (w1 & Ha & Hh).
  rewrite (bind_Ok _ _ _ _ _ Ha).
  destruct (UIContext_Detail._run d) as [[]|];
    unfold UIContext_Run, GusteauChapter1UI_Run_at;
    destruct (Quit_pressed f); run_calls;
    eexists _, _; (split; [reflexivity|exact Hh]).
Qed.

Lemma Render_deref u f ac w a d :
  UIContext.m_ u = Some a ->
  heap w !! a = Some (UIContext_Detail_obj d) ->
  UIContext_Render u f ac w = UIContext_Detail_Render a d f ac w.
Proof.
  intros Hm Hh. unfold UIContext_Render, bind, deref_UIContext_Detail.
  now rewrite Hm, Hh.
Qed.

(** With the UI context in place, the body of the loop runs to its end. *)
Lemma UIEngine_body_returns f ac w u a d :
  ApplicationContextBase.ui (ApplicationContext.base ac) = Some u ->
  UIContext.m_ u = Some a ->
  heap w !! a = Some (UIContext_Detail_obj d) ->
  prevContext f = UIContext_Detail._context d
  \/ prevContext f = nullptr
  \/ UIContext_Detail._context d <> nullptr ->
  exists ac' w', UIEngine_body f ac w = Ok ac' w' /\ heap w' = heap w.
Proof.
  intros Hu Hm Hh Hp. unfold UIEngine_body.
  rewrite (bind_Ok _ _ _ _ _ (call_Ok _ _)), Hu.
  set (w1 := mkWorld (heap w)
               (calls w ++ [glfwWaitEventsTimeout UIEngine_timeout])).
  destruct (Detail_Render_returns a d f ac w1 Hp) as (ac' & w' & Hr & Hw).
  rewrite <- (Render_deref u f ac w1 a d Hm Hh) in Hr.
  rewrite (bind_Ok _ _ _ _ _ Hr). now exists ac', w'.
Qed.

(** *** What a render pass adds *)

Lemma count_calls_app p cs1 cs2 :
  count_calls p (cs1 ++ cs2) = (count_calls p cs1 + count_calls p cs2)%nat.
Proof.
  induction cs1 as [|c cs1 IH]; simpl; [reflexivity|]. rewrite IH. lia.
Qed.

Lemma ActivateContext_calls d f w w' :
  ActivateContext d f w = Ok tt w' ->
  exists cs,
    w' = mkWorld (heap w) (calls w ++ cs) /\ no_frame_calls cs.
Proof.
  destruct d as [win ctx name run], f as [prev fw fh qp].
  unfold ActivateContext.
  cbn [UIContext_Detail._context prevContext]. cbv zeta.
  case_bool_decide as Hpc;
    [|destruct prev as [p|], ctx as [c|]];
    unfold bind, call, ret, undefined; cbn [is_null negb heap calls];
    intros H; inversion H; subst; clear H;
    rewrite <- ?app_assoc; eexists; (split; [reflexivity|]);
    repeat split.
Qed.

Lemma Run_calls cls f ac w :
  UIContext_Run cls f ac w
  = Ok (Run_store (Quit_pressed f) ac)
      (mkWorld (heap w)
         (calls w ++ [ImGui_Text "Hello world"; ImGui_Button "Quit"])).
Proof.
  destruct cls. unfold UIContext_Run, GusteauChapter1UI_Run_at, Run_store,
    bind, call, ret.
  cbn [heap calls]. rewrite <- app_assoc. now destruct (Quit_pressed f).
Qed.

Ltac step_calls :=
  repeat match goal with
         | Hc : call _ _ = Ok _ _ |- _ =>
             rewrite call_Ok in Hc; inversion Hc; subst; clear Hc;
             cbn [heap calls] in *
         end.

(** What one call of [Render] adds, in every case of its tests. *)
Lemma Detail_Render_frame this d f ac w ac' w' :
  UIContext_Detail_Render this d f ac w = Ok ac' w' ->
  heap w' = heap w
  /\ exists cs,
      calls w' = calls w ++ cs
      /\ count_calls is_wait cs = 0%nat
      /\ if draws_frame d ac then
           head cs = Some (glfwMakeContextCurrent (UIContext_Detail._window d))
           /\ last cs = Some (glfwSwapBuffers (UIContext_Detail._window d))
           /\ count_calls is_NewFrame cs = 1%nat
           /\ count_calls is_Begin cs = 1%nat
           /\ count_calls is_End cs = 1%nat
           /\ count_calls is_Render cs = 1%nat
           /\ count_calls is_SwapBuffers cs = 1%nat
           /\ ac' = match UIContext_Detail._run d with
                    | Some _ => Run_store (Quit_pressed f) ac
                    | None => ac
                    end
         else cs = [] /\ ac' = ac.
Proof.
  unfold UIContext_Detail_Render, draws_frame. cbv zeta.
  destruct (is_null (UIContext_Detail._window d)
            || read_join_now as_ApplicationContextBase ac); cbn [negb];
    intros H.
  - inversion H; subst. split; [reflexivity|]. exists [].
    rewrite app_nil_r. now repeat split.
  - inv_bind H. inversion H; subst; clear H.
    match goal with
    | Ha : ActivateContext _ _ _ = Ok ?u _ |- _ =>
        destruct u; apply ActivateContext_calls in Ha
          as (csa & -> & Na1 & Na2 & Na3 & Na4 & Na5 & Na6)
    end.
    destruct (UIContext_Detail._run d) as [cls|].
    + match goal with
      | Hr : UIContext_Run _ _ _ _ = Ok _ _ |- _ =>
          rewrite Run_calls in Hr; inversion Hr; subst; clear Hr
      end.
      step_calls. split; [reflexivity|].
      rewrite <- !app_assoc. eexists. split; [reflexivity|].
      rewrite !count_calls_app, !last_app. cbn.
      rewrite Na1, Na2, Na3, Na4, Na5, Na6.
      now repeat split.
    + match goal with
      | Hr : ret _ _ = Ok _ _ |- _ => inversion Hr; subst; clear Hr
      end.
      step_calls. split; [reflexivity|].
      rewrite <- !app_assoc. eexists. split; [reflexivity|].
      rewrite !count_calls_app, !last_app. cbn.
      rewrite Na1, Na2, Na3, Na4, Na5, Na6.
      now repeat split.
Qed.
(** C5: an iteration of the loop of [UIEngine], entered because
    [join_now] reads [false], is the loop body followed by the next test;
    the body, when it completes, has made exactly these steps in this
    order: [glfwWaitEventsTimeout(1.f / 24.f)], then [Render] on the
    context's UI object, then [Update] on the context, and its calls are
    the wait followed by those of [Render]. With the UI context in place
    the iteration does run: the loop makes the wait, then the calls of
    [Render] (a whole frame from [glfwMakeContextCurrent] to
    [glfwSwapBuffers] when there is a window, none otherwise), then
    [Update], which changes nothing, and goes on to the next test with the
    context and the world these three steps leave; on a single frame that
    is the result of [UIEngine]. The timeout is the binary32 quotient of 1
    by 24, which is 11184811 / 2^28 and lies within 2^-29 of 1/24. *)
Theorem C5_UIEngine_iteration
  (f : FrameEnv) (frames : list FrameEnv) (ac : ApplicationContext.t)
  (w : World) :
  read_join_now as_ApplicationContextBase ac = false ->
  UIEngine (f :: frames) ac w = bind (UIEngine_body f ac) (UIEngine frames) w
  /\ (forall ac' w',
         UIEngine_body f ac w = Ok ac' w' ->
         exists u w1 ac1 w2 cs,
           ApplicationContextBase.ui (ApplicationContext.base ac) = Some u
           /\ call (glfwWaitEventsTimeout UIEngine_timeout) w = Ok tt w1
           /\ UIContext_Render u f ac w1 = Ok ac1 w2
           /\ ApplicationContext_Update ac1 w2 = Ok ac' w'
           /\ calls w2 = calls w1 ++ cs
           /\ calls w' = calls w ++ glfwWaitEventsTimeout UIEngine_timeout :: cs
           /\ heap w' = heap w)
  /\ (forall u a d,
         ApplicationContextBase.ui (ApplicationContext.base ac) = Some u ->
         UIContext.m_ u = Some a ->
         heap w !! a = Some (UIContext_Detail_obj d) ->
         prevContext f = UIContext_Detail._context d
         \/ prevContext f = nullptr
         \/ UIContext_Detail._context d <> nullptr ->
         exists w1 ac1 w2 cs,
           call (glfwWaitEventsTimeout UIEngine_timeout) w = Ok tt w1
           /\ UIContext_Render u f ac w1 = Ok ac1 w2
           /\ ApplicationContext_Update ac1 w2 = Ok ac1 w2
           /\ calls w2
              = calls w ++ glfwWaitEventsTimeout UIEngine_timeout :: cs
           /\ heap w2 = heap w
           /\ (if is_null (UIContext_Detail._window d)
               then cs = [] /\ ac1 = ac
               else head cs
                    = Some (glfwMakeContextCurrent
                              (UIContext_Detail._window d))
                    /\ last cs
                       = Some (glfwSwapBuffers (UIContext_Detail._window d)))
           /\ UIEngine_body f ac w = Ok ac1 w2
           /\ UIEngine (f :: frames) ac w = UIEngine frames ac1 w2
           /\ UIEngine [f] ac w
              = Ok (if read_join_now as_ApplicationContextBase ac1
                    then Returned ac1 else Running ac1) w2)
  /\ UIEngine_timeout = S754_finite false 11184811 (-28)
  /\ exists q,
       float_to_Q UIEngine_timeout = Some q
       /\ (q == 11184811 # 268435456)%Q
       /\ (Qabs (q - (1 # 24)) < 1 # 536870912)%Q.
Proof.
  intros E. split; [|split; [|split; [|split]]].
  - now rewrite UIEngine_unfold, E.
  - intros ac' w' H. unfold UIEngine_body in H.
    apply bind_Ok_inv in H as ([] & w1 & Hw & H).
    apply bind_Ok_inv in H as (ac1 & w2 & Hr & H).
    destruct (ApplicationContextBase.ui (ApplicationContext.base ac))
      as [u|]; [|discriminate].
    destruct (only_calls_Render u f ac w1 ac1 w2 Hr) as (Hh & cs & Hcs).
    exists u, w1, ac1, w2, cs.
    repeat split; try assumption.
    + inversion H; subst. rewrite Hcs. inversion Hw; subst. simpl.
      now rewrite <- app_assoc.
    + inversion H; subst. rewrite Hh. now inversion Hw.
  - intros u a d Hu Hm Hh Hp.
    destruct (UIEngine_body_returns f ac w u a d Hu Hm Hh Hp)
      as (ac1 & w2 & Hb & Hh2).
    pose proof Hb as Hb'.
    unfold UIEngine_body, ApplicationContext_Update in Hb'.
    rewrite (bind_Ok _ _ _ _ _ (call_Ok _ _)), Hu in Hb'.
    set (w1 := mkWorld (heap w)
                 (calls w ++ [glfwWaitEventsTimeout UIEngine_timeout]))
      in *.
    apply bind_Ok_inv in Hb' as (ac2 & w3 & Hr & Hb').
    inversion Hb'; subst ac2 w3; clear Hb'.
    pose proof Hr as Hr'.
    rewrite (Render_deref u f ac w1 a d Hm Hh) in Hr'.
    apply Detail_Render_frame in Hr' as (_ & cs & Hc & _ & Hf).
    unfold draws_frame in Hf. rewrite E, orb_false_r in Hf.
    exists w1, ac1, w2, cs.
    split; [reflexivity|]. split; [exact Hr|]. split; [reflexivity|].
    split; [rewrite Hc; subst w1; cbn [calls]; now rewrite <- app_assoc|].
    split; [exact Hh2|].
    split; [destruct (is_null (UIContext_Detail._window d)); cbn [negb] in Hf;
            [exact Hf | now destruct Hf as (H1 & H2 & _)]|].
    split; [exact Hb|].
    split; [now rewrite UIEngine_unfold, E, (bind_Ok _ _ _ _ _ Hb)|].
    rewrite UIEngine_unfold, E, (bind_Ok _ _ _ _ _ Hb), UIEngine_unfold.
    now destruct (read_join_now as_ApplicationContextBase ac1).
  - vm_compute. reflexivity.
  - eexists. split; [vm_compute; reflexivity|]. split; vm_compute; reflexivity.
Qed.

(** * Further properties of the code *)

(** ** Construction and destruction *)

Lemma world_eta (w : World) : mkWorld (heap w) (calls w) = w.
Proof. now destruct w. Qed.

Lemma new_then_delete (d : Detail) (w : World) {T} (mk : ptr -> T)
  (get : T -> ptr) :
  (forall p, get (mk p) = p) ->
  exists t w1,
    bind (new d) (fun p => ret (mk p)) w = Ok t w1
    /\ delete_ (get t) w1 = Ok tt w.
Proof.
  intros Hget. destruct (new_fresh d w) as (a & Hn & Hf).
  eexists _, _. split; [now rewrite (bind_Ok _ _ _ _ _ Hn)|].
  rewrite Hget. unfold delete_. simpl.
  now rewrite (delete_insert_id _ _ _ Hf), world_eta.
Qed.

(** X1: for [StateContext], [RenderContext] and [GraphicsContext], the
    destructor undoes the constructor: constructing an object and then
    destroying it leaves the heap and the calls exactly as they were. *)
Theorem X1_construct_then_destroy (w : World) :
  (exists s w1,
      StateContext_ctor w = Ok s w1 /\ StateContext_dtor s w1 = Ok tt w)
  /\ (exists r w1,
         RenderContext_ctor w = Ok r w1 /\ RenderContext_dtor r w1 = Ok tt w)
  /\ (exists g w1,
         GraphicsContext_ctor w = Ok g w1
         /\ GraphicsContext_dtor g w1 = Ok tt w).
Proof.
  split; [|split].
  - apply (new_then_delete _ w StateContext.mk StateContext.m_). reflexivity.
  - apply (new_then_delete _ w RenderContext.mk RenderContext.m_). reflexivity.
  - apply (new_then_delete _ w GraphicsContext.mk GraphicsContext.m_).
    reflexivity.
Qed.

(** The outcome of the constructor of [GLFWGraphicsContext], spelled out. *)
Lemma GLFWGraphicsContext_ctor_fails env w :
  glfwInit_result env = 0 ->
  GLFWGraphicsContext_ctor env w
  = Throw (std_runtime_error "Could not initialize glfw")
      (mkWorld (heap w) (calls w ++ [glfwSetErrorCallback; glfwInit])).
Proof.
  intros E. destruct (new_fresh GraphicsContext_Detail w) as (a & Hn & Hf).
  unfold GLFWGraphicsContext_ctor, GraphicsContext_ctor, GraphicsContext_dtor.
  apply Z.eqb_eq in E. rewrite E.
  unfold bind at 1. unfold bind at 1. rewrite Hn.
  run_calls. cbv [delete_ GraphicsContext.m_].
  simpl. now rewrite (delete_insert_id _ _ _ Hf), <- app_assoc.
Qed.

Lemma GLFWGraphicsContext_ctor_succeeds env w :
  glfwInit_result env <> 0 ->
  exists a cs,
    heap w !! a = None
    /\ GLFWGraphicsContext_ctor env w
       = Ok (GLFWGraphicsContext.mk (GraphicsContext.mk (Some a))
               (root_window env))
           (mkWorld (<[a := GraphicsContext_Detail]> (heap w))
              (calls w ++ cs))
    /\ last cs = Some (glfwMakeContextCurrent nullptr)
    /\ In (glfwCreateWindow 16 16 "Root graphics context" nullptr nullptr) cs
    /\ count_calls is_wait cs = 0%nat
    /\ count_calls is_SwapBuffers cs = 0%nat.
Proof.
  intros E. destruct (new_fresh GraphicsContext_Detail w) as (a & Hn & Hf).
  exists a. unfold GLFWGraphicsContext_ctor, GraphicsContext_ctor,
    setGlfwFlags.
  apply Z.eqb_neq in E. rewrite E.
  unfold bind at 1. unfold bind at 1. rewrite Hn.
  destruct (APPLE env), (GLEW_VERSION_4_1 env),
    (is_null (glProgramParameteri env)); run_calls; cbv [negb];
    rewrite <- !app_assoc; eexists; (split; [exact Hf|]);
    (split; [reflexivity|]); (split; [reflexivity|]);
    (split; [simpl; repeat first [left; reflexivity | right]|]);
    split; reflexivity.
Qed.

(** X2: when [glfwInit] answers 0, [CreateRootGraphicsContext] throws
    before anything else is done: the only calls made are
    [glfwSetErrorCallback] and [glfwInit], no window is created, and the
    [Detail] allocated for the base sub-object is released again, so the
    heap is as it was. *)
Theorem X2_failed_init_leaves_nothing_behind (env : InitEnv) (w : World) :
  glfwInit_result env = 0 ->
  CreateRootGraphicsContext env w
  = Throw (std_runtime_error "Could not initialize glfw")
      (mkWorld (heap w) (calls w ++ [glfwSetErrorCallback; glfwInit])).
Proof.
  intros E. unfold CreateRootGraphicsContext, bind.
  now rewrite (GLFWGraphicsContext_ctor_fails env w E).
Qed.

Lemma X2_failed_init_leaves_nothing_behind_witness :
  CreateRootGraphicsContext env_no_glfw empty_world
  = Throw (std_runtime_error "Could not initialize glfw")
      (mkWorld (heap empty_world)
         (calls empty_world ++ [glfwSetErrorCallback; glfwInit])).
Proof.
  apply (X2_failed_init_leaves_nothing_behind env_no_glfw empty_world).
  reflexivity.
Defined.

Lemma UIContext_ctor_GLFW env cls g window_name width height w :
  exists a cs,
    heap w !! a = None
    /\ UIContext_ctor env cls (GLFWGraphicsContextObj g) window_name width
         height w
       = Ok (UIContext.mk (Some a) cls)
           (mkWorld
              (<[a := UIContext_Detail_obj
                        (UIContext_Detail.mk (ui_window env)
                           (imgui_context env) window_name (Some cls))]>
                 (heap w))
              (calls w ++ cs))
    /\ last cs = Some (glfwMakeContextCurrent nullptr)
    /\ In (glfwCreateWindow width height window_name nullptr
             (GLFWGraphicsContext._window g)) cs
    /\ count_calls is_wait cs = 0%nat
    /\ count_calls is_SwapBuffers cs = 0%nat.
Proof.
  set (d := UIContext_Detail.mk (ui_window env) (imgui_context env)
              window_name (Some cls)).
  assert (Hd : exists cs,
             UIContext_Detail_ctor env (GLFWGraphicsContextObj g) (Some cls)
               window_name width height w
             = Ok d (mkWorld (heap w) (calls w ++ cs))
             /\ last cs = Some (glfwMakeContextCurrent nullptr)
             /\ In (glfwCreateWindow width height window_name nullptr
                      (GLFWGraphicsContext._window g)) cs
             /\ count_calls is_wait cs = 0%nat
             /\ count_calls is_SwapBuffers cs = 0%nat).
  { unfold UIContext_Detail_ctor, setGlfwFlags.
    destruct (APPLE env); run_calls; rewrite <- !app_assoc;
      eexists; (split; [reflexivity|]); (split; [reflexivity|]);
      (split; [simpl; repeat first [left; reflexivity | right]|]);
      split; reflexivity. }
  destruct Hd as (cs & Hd & Hlast & Hin).
  destruct (new_fresh (UIContext_Detail_obj d)
              (mkWorld (heap w) (calls w ++ cs))) as (a & Hn & Hf).
  exists a, cs. split; [exact Hf|]. split; [|now split].
  unfold UIContext_ctor. rewrite (bind_Ok _ _ _ _ _ Hd).
  now rewrite (bind_Ok _ _ _ _ _ Hn).
Qed.

(** X3: [CreateUIContext] is defined exactly on GLFW graphics contexts.
    Given the GLFW context it returns a non-null UI context; given a plain
    [GraphicsContext] the unchecked [dynamic_cast] of line 382 yields null
    and [gc->_window] is undefined. It never throws. *)
Theorem X3_CreateUIContext_needs_the_GLFW_context
  (env : InitEnv) (gc : GraphicsContextObj) (w : World) :
  match CreateUIContext env gc w with
  | Ok p w' =>
      exists g u, gc = GLFWGraphicsContextObj g /\ p = Some u
  | Undefined => exists g, gc = PlainGraphicsContext g
  | Throw _ _ => False
  end.
Proof.
  unfold CreateUIContext, GusteauChapter1UI_ctor. destruct gc as [g|g].
  - unfold UIContext_ctor, UIContext_Detail_ctor, setGlfwFlags.
    destruct (APPLE env); run_calls; now exists g.
  - destruct (UIContext_ctor_GLFW env GusteauChapter1UI g "gusteau" 1024 1024
                w) as (a & cs & _ & Hc & _).
    rewrite (bind_Ok _ _ _ _ _ Hc). unfold ret. now eexists g, _.
Qed.

Lemma ApplicationContext_ctor_result gc ui w :
  exists a3 a4,
    heap w !! a3 = None /\ heap w !! a4 = None /\ a3 <> a4
    /\ ApplicationContext_ctor gc ui w
       = Ok (ApplicationContext.mk (ApplicationContextBase.mk false ui) gc
               (StateContext.mk (Some a3)) (RenderContext.mk (Some a4))
               false)
           (mkWorld
              (<[a4 := RenderContext_Detail]>
                 (<[a3 := StateContext_Detail]> (heap w)))
              (calls w)).
Proof.
  destruct (new_fresh StateContext_Detail w) as (a3 & Hn3 & Hf3).
  destruct (new_fresh RenderContext_Detail
              (mkWorld (<[a3 := StateContext_Detail]> (heap w)) (calls w)))
    as (a4 & Hn4 & Hf4).
  simpl in Hf4. apply lookup_insert_None in Hf4 as (Hf4 & Hne).
  exists a3, a4. repeat split; try assumption.
  unfold ApplicationContext_ctor, ApplicationContextBase_ctor,
    StateContext_ctor, RenderContext_ctor.
  unfold bind at 1. unfold ret at 1.
  unfold bind at 1. unfold bind at 1. rewrite Hn3. unfold ret at 1.
  unfold bind at 1. unfold bind at 1. rewrite Hn4. reflexivity.
Qed.

(** X4: constructing an [ApplicationContext] allocates the [Detail]s of
    its [StateContext] and [RenderContext] members at two distinct
    addresses that were free, leaves every object already on the heap
    where it was, makes no call, stores the UI context and the graphics
    context it was given and leaves both [join_now] members [false];
    destroying it right away releases both [Detail]s and gives back the
    world as it was. *)
Theorem X4_ApplicationContext_construct_then_destroy
  (gc : GraphicsContextObj) (ui : shared_ptr UIContext.t) (w : World) :
  exists a3 a4 w1,
    ApplicationContext_ctor gc ui w
    = Ok (ApplicationContext.mk (ApplicationContextBase.mk false ui) gc
            (StateContext.mk (Some a3)) (RenderContext.mk (Some a4)) false)
        w1
    /\ a3 <> a4
    /\ heap w !! a3 = None
    /\ heap w !! a4 = None
    /\ heap w1 !! a3 = Some StateContext_Detail
    /\ heap w1 !! a4 = Some RenderContext_Detail
    /\ (forall a, a <> a3 -> a <> a4 -> heap w1 !! a = heap w !! a)
    /\ calls w1 = calls w
    /\ ApplicationContext_dtor
         (ApplicationContext.mk (ApplicationContextBase.mk false ui) gc
            (StateContext.mk (Some a3)) (RenderContext.mk (Some a4)) false)
         w1
       = Ok tt w.
Proof.
  destruct (ApplicationContext_ctor_result gc ui w)
    as (a3 & a4 & Hf3 & Hf4 & Hne & Hc).
  eexists a3, a4, _. split; [exact Hc|]. cbn [heap calls].
  split; [exact Hne|]. split; [exact Hf3|]. split; [exact Hf4|].
  split; [now rewrite lookup_insert_ne, lookup_insert_eq|].
  split; [apply lookup_insert_eq|].
  split; [intros a H3 H4; now rewrite !lookup_insert_ne|].
  split; [reflexivity|].
  unfold ApplicationContext_dtor, RenderContext_dtor, StateContext_dtor,
    bind, delete_. simpl.
  rewrite delete_insert_id by now rewrite lookup_insert_ne.
  now rewrite (delete_insert_id _ _ _ Hf3), world_eta.
Qed.

(** X5: when [glfwInit] succeeds, the constructor of
    [GLFWGraphicsContext] ends by releasing the OpenGL context it made
    current (its last call is [glfwMakeContextCurrent(nullptr)]), and the
    destructor undoes the constructor on the heap; the destructor destroys
    the root window when there is one and makes no call when
    [glfwCreateWindow] had answered null. *)
Theorem X5_GLFWGraphicsContext_construct_then_destroy
  (env : InitEnv) (w : World) :
  glfwInit_result env <> 0 ->
  exists g w1 w2 cs,
    GLFWGraphicsContext_ctor env w = Ok g w1
    /\ calls w1 = calls w ++ cs
    /\ last cs = Some (glfwMakeContextCurrent nullptr)
    /\ GLFWGraphicsContext_dtor g w1 = Ok tt w2
    /\ heap w2 = heap w
    /\ calls w2
       = calls w1
         ++ (if is_null (root_window env) then []
             else [glfwDestroyWindow (root_window env)]).
Proof.
  intros E.
  destruct (GLFWGraphicsContext_ctor_succeeds env w E)
    as (a & cs & Hf & Hc & Hlast & _).
  destruct (root_window env) as [h|] eqn:Ew;
    eexists _, _, _, cs; (split; [exact Hc|]); (split; [reflexivity|]);
    (split; [exact Hlast|]);
    unfold GLFWGraphicsContext_dtor, GraphicsContext_dtor, bind, call, ret,
      when, delete_; simpl;
    (split; [reflexivity|]); simpl; rewrite (delete_insert_id _ _ _ Hf);
    (split; [reflexivity|]); now rewrite ?app_nil_r.
Qed.

Lemma X5_GLFWGraphicsContext_construct_then_destroy_witness :
  exists g w1 w2 cs,
    GLFWGraphicsContext_ctor env_ok empty_world = Ok g w1
    /\ calls w1 = calls empty_world ++ cs
    /\ last cs = Some (glfwMakeContextCurrent nullptr)
    /\ GLFWGraphicsContext_dtor g w1 = Ok tt w2
    /\ heap w2 = heap empty_world
    /\ calls w2
       = calls w1
         ++ (if is_null (root_window env_ok) then []
             else [glfwDestroyWindow (root_window env_ok)]).
Proof.
  apply (X5_GLFWGraphicsContext_construct_then_destroy env_ok empty_world).
  discriminate.
Defined.

(** X6: the destructor of [UIContext] undoes its constructor on the heap.
    The constructor, given the GLFW context, ends by releasing the OpenGL
    context; the destructor shuts ImGui down, destroys the UI window
    (without the null test the root context makes) and terminates GLFW,
    in this order. *)
Theorem X6_UIContext_construct_then_destroy
  (env : InitEnv) (cls : UIClass) (g : GLFWGraphicsContext.t)
  (window_name : string) (width height : Z) (w : World) :
  exists u w1 w2 cs,
    UIContext_ctor env cls (GLFWGraphicsContextObj g) window_name width
      height w = Ok u w1
    /\ calls w1 = calls w ++ cs
    /\ last cs = Some (glfwMakeContextCurrent nullptr)
    /\ UIContext_dtor u w1 = Ok tt w2
    /\ heap w2 = heap w
    /\ calls w2
       = calls w1
         ++ [ ImGui_ImplOpenGL3_Shutdown; ImGui_ImplGlfw_Shutdown;
              ImGui_DestroyContext; glfwDestroyWindow (ui_window env);
              glfwTerminate ].
Proof.
  destruct (UIContext_ctor_GLFW env cls g window_name width height w)
    as (a & cs & Hf & Hc & Hlast & _).
  eexists _, _, _, cs. split; [exact Hc|]. split; [reflexivity|].
  split; [exact Hlast|].
  unfold UIContext_dtor, UIContext_Detail_dtor, deref_UIContext_Detail,
    bind, call, ret, delete_.
  cbn [UIContext.m_ heap calls]. rewrite lookup_insert_eq.
  cbn [UIContext.m_ heap calls fst snd UIContext_Detail._window].
  split; [reflexivity|]. cbn [heap calls].
  rewrite (delete_insert_id _ _ _ Hf).
  split; [reflexivity|]. now rewrite <- !app_assoc.
Qed.

Lemma X6_UIContext_construct_then_destroy_witness :
  exists u w1 w2 cs,
    UIContext_ctor env_ok GusteauChapter1UI
      (GLFWGraphicsContextObj
         (GLFWGraphicsContext.mk (GraphicsContext.mk (Some 1%positive))
            (Some 100%positive)))
      "gusteau" 1024 1024 empty_world = Ok u w1
    /\ calls w1 = calls empty_world ++ cs
    /\ last cs = Some (glfwMakeContextCurrent nullptr)
    /\ UIContext_dtor u w1 = Ok tt w2
    /\ heap w2 = heap empty_world
    /\ calls w2
       = calls w1
         ++ [ ImGui_ImplOpenGL3_Shutdown; ImGui_ImplGlfw_Shutdown;
              ImGui_DestroyContext; glfwDestroyWindow (ui_window env_ok);
              glfwTerminate ].
Proof.
  exact (X6_UIContext_construct_then_destroy env_ok GusteauChapter1UI
           (GLFWGraphicsContext.mk (GraphicsContext.mk (Some 1%positive))
              (Some 100%positive))
           "gusteau" 1024 1024 empty_world).
Defined.

(** ** Start-up *)

(** The three factory calls of lines 207-209, one after the other. *)
Lemma startup_steps env w :
  glfwInit_result env <> 0 ->
  exists a1 a2 a3 a4 cs w1 w2,
    let gc := GLFWGraphicsContextObj
                (GLFWGraphicsContext.mk (GraphicsContext.mk (Some a1))
                   (root_window env)) in
    let u := UIContext.mk (Some a2) GusteauChapter1UI in
    let d := UIContext_Detail.mk (ui_window env) (imgui_context env)
               "gusteau" (Some GusteauChapter1UI) in
    let ac := ApplicationContext.mk
                (ApplicationContextBase.mk false (Some u)) gc
                (StateContext.mk (Some a3)) (RenderContext.mk (Some a4))
                false in
    CreateRootGraphicsContext env w = Ok (Some gc) w1
    /\ CreateUIContext env gc w1 = Ok (Some u) w2
    /\ CreateApplicationContext gc (Some u) w2
       = Ok (Some ac)
           (mkWorld
              (<[a4 := RenderContext_Detail]>
                 (<[a3 := StateContext_Detail]>
                    (<[a2 := UIContext_Detail_obj d]>
                       (<[a1 := GraphicsContext_Detail]> (heap w)))))
              (calls w ++ cs))
    /\ NoDup [a1; a2; a3; a4]
    /\ Forall (fun a => heap w !! a = None) [a1; a2; a3; a4]
    /\ In (glfwCreateWindow 16 16 "Root graphics context" nullptr nullptr) cs
    /\ In (glfwCreateWindow 1024 1024 "gusteau" nullptr (root_window env)) cs
    /\ last cs = Some (glfwMakeContextCurrent nullptr)
    /\ count_calls is_wait cs = 0%nat
    /\ count_calls is_SwapBuffers cs = 0%nat.
Proof.
  intros E.
  destruct (GLFWGraphicsContext_ctor_succeeds env w E)
    as (a1 & cs1 & Hf1 & Hc1 & _ & Hin1 & Hw1 & Hs1).
  set (w1 := mkWorld (<[a1 := GraphicsContext_Detail]> (heap w))
               (calls w ++ cs1)) in *.
  destruct (UIContext_ctor_GLFW env GusteauChapter1UI
              (GLFWGraphicsContext.mk (GraphicsContext.mk (Some a1))
                 (root_window env)) "gusteau" 1024 1024 w1)
    as (a2 & cs2 & Hf2 & Hc2 & Hlast2 & Hin2 & Hw2 & Hs2).
  match type of Hc2 with _ = Ok _ ?x => set (w2 := x) in * end.
  destruct (ApplicationContext_ctor_result
              (GLFWGraphicsContextObj
                 (GLFWGraphicsContext.mk (GraphicsContext.mk (Some a1))
                    (root_window env)))
              (Some (UIContext.mk (Some a2) GusteauChapter1UI)) w2)
    as (a3 & a4 & Hf3 & Hf4 & Hne & Hc3).
  subst w1 w2. simpl in Hf2, Hf3, Hf4, Hc3, Hin2.
  apply lookup_insert_None in Hf2 as (Hf2 & Hn12).
  apply lookup_insert_None in Hf3 as (Hf3 & Hn23).
  apply lookup_insert_None in Hf3 as (Hf3 & Hn13).
  apply lookup_insert_None in Hf4 as (Hf4 & Hn24).
  apply lookup_insert_None in Hf4 as (Hf4 & Hn14).
  exists a1, a2, a3, a4, (cs1 ++ cs2). eexists _, _. cbv zeta.
  split; [unfold CreateRootGraphicsContext;
          now rewrite (bind_Ok _ _ _ _ _ Hc1)|].
  split; [unfold CreateUIContext, GusteauChapter1UI_ctor;
          now rewrite (bind_Ok _ _ _ _ _ Hc2)|].
  split; [unfold CreateApplicationContext;
          rewrite (bind_Ok _ _ _ _ _ Hc3); unfold ret;
          now rewrite <- app_assoc|].
  split.
  { repeat constructor; rewrite ?list_elem_of_In; simpl; intuition congruence. }
  split; [repeat constructor; assumption|].
  split; [apply in_or_app; now left|].
  split; [apply in_or_app; now right|].
  split; [rewrite last_app; now rewrite Hlast2|].
  rewrite !count_calls_app. split; lia.
Qed.

(** X7: when [glfwInit] succeeds, start-up (the three factory calls of
    [main]) always completes and yields one application context with both
    [join_now] members [false]. It has allocated exactly four [Detail]
    objects, at four distinct addresses that were free, one per context
    object; the UI window is created 1024 by 1024 with the title
    [gusteau], sharing the OpenGL context of the root window; and no
    OpenGL context is left current. *)
Theorem X7_startup_builds_the_context (env : InitEnv) (w : World) :
  glfwInit_result env <> 0 ->
  exists a1 a2 a3 a4 cs,
    startup env w
    = Ok (Some
            (ApplicationContext.mk
               (ApplicationContextBase.mk false
                  (Some (UIContext.mk (Some a2) GusteauChapter1UI)))
               (GLFWGraphicsContextObj
                  (GLFWGraphicsContext.mk (GraphicsContext.mk (Some a1))
                     (root_window env)))
               (StateContext.mk (Some a3)) (RenderContext.mk (Some a4))
               false))
        (mkWorld
           (<[a4 := RenderContext_Detail]>
              (<[a3 := StateContext_Detail]>
                 (<[a2 := UIContext_Detail_obj
                            (UIContext_Detail.mk (ui_window env)
                               (imgui_context env) "gusteau"
                               (Some GusteauChapter1UI))]>
                    (<[a1 := GraphicsContext_Detail]> (heap w)))))
           (calls w ++ cs))
    /\ NoDup [a1; a2; a3; a4]
    /\ Forall (fun a => heap w !! a = None) [a1; a2; a3; a4]
    /\ In (glfwCreateWindow 1024 1024 "gusteau" nullptr (root_window env)) cs
    /\ last cs = Some (glfwMakeContextCurrent nullptr).
Proof.
  intros E.
  destruct (startup_steps env w E)
    as (a1 & a2 & a3 & a4 & cs & w1 & w2 & H1 & H2 & H3 & Hnd & Hfr & _
        & Hin & Hlast & _).
  exists a1, a2, a3, a4, cs. split; [|now repeat split].
  unfold startup. rewrite (bind_Ok _ _ _ _ _ H1).
  now rewrite (bind_Ok _ _ _ _ _ H2).
Qed.

Lemma X7_startup_builds_the_context_witness :
  exists a1 a2 a3 a4 cs,
    startup env_ok empty_world
    = Ok (Some
            (ApplicationContext.mk
               (ApplicationContextBase.mk false
                  (Some (UIContext.mk (Some a2) GusteauChapter1UI)))
               (GLFWGraphicsContextObj
                  (GLFWGraphicsContext.mk (GraphicsContext.mk (Some a1))
                     (root_window env_ok)))
               (StateContext.mk (Some a3)) (RenderContext.mk (Some a4))
               false))
        (mkWorld
           (<[a4 := RenderContext_Detail]>
              (<[a3 := StateContext_Detail]>
                 (<[a2 := UIContext_Detail_obj
                            (UIContext_Detail.mk (ui_window env_ok)
                               (imgui_context env_ok) "gusteau"
                               (Some GusteauChapter1UI))]>
                    (<[a1 := GraphicsContext_Detail]> (heap empty_world)))))
           (calls empty_world ++ cs))
    /\ NoDup [a1; a2; a3; a4]
    /\ Forall (fun a => heap empty_world !! a = None) [a1; a2; a3; a4]
    /\ In (glfwCreateWindow 1024 1024 "gusteau" nullptr (root_window env_ok))
         cs
    /\ last cs = Some (glfwMakeContextCurrent nullptr).
Proof.
  apply (X7_startup_builds_the_context env_ok empty_world). discriminate.
Defined.

(** ** The render pass, call by call *)

(** X8: [ActivateContext] is undefined exactly when the UI context holds
    no ImGui context while another one is current (the copy of line 427
    writes through the null [_context]); it never throws. When it returns
    it has left the heap alone; if the context was already current it has
    only asked for the current context, and otherwise its last call makes
    [_context] current, the style and key map being copied first exactly
    when some context was current before. *)
Theorem X8_ActivateContext_outcome
  (d : UIContext_Detail.t) (f : FrameEnv) (w : World) :
  match ActivateContext d f w with
  | Undefined =>
      UIContext_Detail._context d = nullptr /\ prevContext f <> nullptr
  | Throw _ _ => False
  | Ok _ w' =>
      (UIContext_Detail._context d <> nullptr \/ prevContext f = nullptr)
      /\ heap w' = heap w
      /\ exists cs,
          calls w' = calls w ++ ImGui_GetCurrentContext :: cs
          /\ (prevContext f = UIContext_Detail._context d -> cs = [])
          /\ (prevContext f <> UIContext_Detail._context d ->
              last cs
              = Some (ImGui_SetCurrentContext (UIContext_Detail._context d)))
          /\ (In (copy_Style (UIContext_Detail._context d) (prevContext f)) cs
              <-> prevContext f <> UIContext_Detail._context d
                  /\ prevContext f <> nullptr)
  end.
Proof.
  destruct d as [win ctx name run], f as [prev fw fh qp].
  unfold ActivateContext, nullptr. cbn [UIContext_Detail._context prevContext].
  cbv zeta. case_bool_decide as Hpc.
  - subst ctx. unfold bind, call, ret. cbn [heap calls].
    split; [destruct prev; [left; discriminate | now right]|].
    split; [reflexivity|]. exists []. repeat split; try tauto.
  - destruct prev as [p|], ctx as [c|]; try congruence;
      unfold bind, call, ret, undefined; cbn [is_null negb heap calls].
    + split; [left; discriminate|]. split; [reflexivity|].
      eexists. rewrite <- !app_assoc. split; [reflexivity|].
      split; [tauto|]. split; [reflexivity|].
      split; [intros _; split; [assumption | discriminate]|].
      intros _. now left.
    + split; [reflexivity | discriminate].
    + split; [now right|]. split; [reflexivity|].
      eexists. rewrite <- !app_assoc. split; [reflexivity|].
      split; [tauto|]. split; [reflexivity|].
      split; [|intros [_ Hn]; now destruct Hn].
      intros [Hc|[]]. discriminate Hc.
Qed.

(** X9: a call of [UIContext::Detail::Render] that returns has either done
    nothing (the window is null or [join_now] is set: no call, context
    unchanged) or drawn one whole frame: the calls begin with
    [glfwMakeContextCurrent] on the window and end with [glfwSwapBuffers]
    on it, with exactly one [NewFrame], one [Begin], one [End] and one
    [ImGui::Render] in between, also when Quit is pressed in that frame;
    the context afterwards is the one given, with [true] stored in the
    [join_now] that the parameter type of [Run] names when the callback is
    set and Quit was pressed. The heap is never touched. *)
Theorem X9_Render_draws_whole_frames
  (this : addr) (d : UIContext_Detail.t) (f : FrameEnv)
  (ac ac' : ApplicationContext.t) (w w' : World) :
  UIContext_Detail_Render this d f ac w = Ok ac' w' ->
  heap w' = heap w
  /\ exists cs,
      calls w' = calls w ++ cs
      /\ if draws_frame d ac then
           head cs = Some (glfwMakeContextCurrent (UIContext_Detail._window d))
           /\ last cs = Some (glfwSwapBuffers (UIContext_Detail._window d))
           /\ count_calls is_NewFrame cs = 1%nat
           /\ count_calls is_Begin cs = 1%nat
           /\ count_calls is_End cs = 1%nat
           /\ count_calls is_Render cs = 1%nat
           /\ count_calls is_SwapBuffers cs = 1%nat
           /\ ac' = match UIContext_Detail._run d with
                    | Some _ =>
                        if Quit_pressed f
                        then assign_join_now Run_parameter true ac
                        else ac
                    | None => ac
                    end
         else cs = [] /\ ac' = ac.
Proof.
  intros H. apply Detail_Render_frame in H as (Hh & cs & Hc & _ & Hf).
  split; [exact Hh|]. now exists cs.
Qed.

(** ** Whole runs of UIEngine *)

Lemma Render_inv u f ac w ac' w' :
  UIContext_Render u f ac w = Ok ac' w' ->
  exists a d,
    UIContext.m_ u = Some a
    /\ heap w !! a = Some (UIContext_Detail_obj d)
    /\ UIContext_Detail_Render a d f ac w = Ok ac' w'.
Proof.
  unfold UIContext_Render. intros H.
  apply bind_Ok_inv in H as ([a d] & w1 & Hd & H).
  unfold deref_UIContext_Detail in Hd.
  destruct (UIContext.m_ u) as [a0|]; [|discriminate].
  destruct (heap w !! a0) as [[| | |d0]|] eqn:Hl; try discriminate.
  inversion Hd; subst. now exists a, d.
Qed.

(** One iteration: one wait, at most one frame, the heap as before. *)
Lemma UIEngine_body_frame f ac w ac' w' :
  UIEngine_body f ac w = Ok ac' w' ->
  heap w' = heap w
  /\ exists cs n,
      calls w' = calls w ++ cs
      /\ count_calls is_wait cs = 1%nat
      /\ (n <= 1)%nat
      /\ count_calls is_NewFrame cs = n
      /\ count_calls is_Begin cs = n
      /\ count_calls is_End cs = n
      /\ count_calls is_Render cs = n
      /\ count_calls is_SwapBuffers cs = n.
Proof.
  intros H. unfold UIEngine_body, ApplicationContext_Update in H.
  apply bind_Ok_inv in H as ([] & w1 & Hw & H).
  apply bind_Ok_inv in H as (ac1 & w2 & Hr & H).
  inversion H; subst; clear H. inversion Hw; subst; clear Hw.
  destruct (ApplicationContextBase.ui (ApplicationContext.base ac))
    as [u|]; [|discriminate].
  apply Render_inv in Hr as (a & d & _ & _ & Hr).
  apply Detail_Render_frame in Hr as (Hh & cs & Hc & Hwait & Hf).
  split; [exact Hh|].
  exists (glfwWaitEventsTimeout UIEngine_timeout :: cs).
  destruct (draws_frame d ac).
  - destruct Hf as (_ & _ & H1 & H2 & H3 & H4 & H5 & _).
    exists 1%nat. rewrite Hc. cbn [calls count_calls is_wait is_NewFrame
      is_Begin is_End is_Render is_SwapBuffers].
    rewrite <- app_assoc. repeat split; simpl; auto; lia.
  - destruct Hf as (-> & _).
    exists 0%nat. rewrite Hc. cbn [calls].
    rewrite <- app_assoc. repeat split; simpl; auto; lia.
Qed.

(** X10: in any run of [UIEngine] that comes back to the caller of the
    embedding (returned, or its frames used up), the heap is as it was, and
    the calls it has added are balanced: as many [ImGui::NewFrame] as
    [ImGui::Render], as many [Begin] as [End], one [glfwSwapBuffers] per
    frame begun, at most one frame per wait and at most one wait per frame
    given. When the loop is still running after the frames it was given,
    it has waited exactly once per frame; when it has returned, the
    [join_now] it polls reads [true]. *)
Theorem X10_UIEngine_calls_are_balanced
  (frames : list FrameEnv) (ac : ApplicationContext.t) (w : World)
  (r : Engine ApplicationContext.t) (w' : World) :
  UIEngine frames ac w = Ok r w' ->
  heap w' = heap w
  /\ exists cs,
      calls w' = calls w ++ cs
      /\ (count_calls is_wait cs <= length frames)%nat
      /\ match r with
         | Running _ => count_calls is_wait cs = length frames
         | Returned ac' =>
             read_join_now as_ApplicationContextBase ac' = true
         end
      /\ count_calls is_NewFrame cs = count_calls is_Render cs
      /\ count_calls is_Begin cs = count_calls is_End cs
      /\ count_calls is_NewFrame cs = count_calls is_Begin cs
      /\ count_calls is_NewFrame cs = count_calls is_SwapBuffers cs
      /\ (count_calls is_NewFrame cs <= count_calls is_wait cs)%nat.
Proof.
  revert ac w. induction frames as [|f frames IH]; intros ac w;
    rewrite UIEngine_unfold;
    destruct (read_join_now as_ApplicationContextBase ac) eqn:E; intros H;
    try (inversion H; subst; split; [reflexivity|]; exists [];
         rewrite app_nil_r; cbn [count_calls length];
         repeat split; solve [assumption | lia]).
  apply bind_Ok_inv in H as (ac1 & w1 & Hb & H).
  apply UIEngine_body_frame in Hb
    as (Hh1 & cs1 & n & Hc1 & Hw1 & Hn & N1 & N2 & N3 & N4 & N5).
  apply IH in H as (Hh2 & cs2 & Hc2 & Hle & Hr & M1 & M2 & M3 & M4 & M5).
  split; [congruence|]. exists (cs1 ++ cs2).
  rewrite Hc2, Hc1, <- app_assoc, !count_calls_app.
  split; [reflexivity|]. cbn [length].
  split; [lia|]. split; [destruct r; [exact Hr | lia]|].
  repeat split; lia.
Qed.

Lemma UIEngine_body_draws f ac w u a d cls :
  ApplicationContextBase.ui (ApplicationContext.base ac) = Some u ->
  UIContext.m_ u = Some a ->
  heap w !! a = Some (UIContext_Detail_obj d) ->
  UIContext_Detail._window d <> nullptr ->
  UIContext_Detail._context d <> nullptr ->
  UIContext_Detail._run d = Some cls ->
  read_join_now as_ApplicationContextBase ac = false ->
  exists w1 cs,
    UIEngine_body f ac w = Ok (Run_store (Quit_pressed f) ac) w1
    /\ heap w1 = heap w
    /\ calls w1 = calls w ++ cs
    /\ count_calls is_SwapBuffers cs = 1%nat
    /\ count_calls is_wait cs = 1%nat.
Proof.
  intros Hu Hm Hh Hwin Hctx Hrun Hj.
  destruct (UIEngine_body_returns f ac w u a d Hu Hm Hh
              (or_intror (or_intror Hctx))) as (ac1 & w1 & Hb & Hh1).
  pose proof Hb as Hb'. unfold UIEngine_body, ApplicationContext_Update in Hb'.
  apply bind_Ok_inv in Hb' as ([] & w0 & Hw & Hb').
  apply bind_Ok_inv in Hb' as (ac2 & w2 & Hr & Hb').
  inversion Hb'; subst; clear Hb'. inversion Hw; subst; clear Hw.
  rewrite Hu in Hr.
  erewrite Render_deref in Hr by (try exact Hm; exact Hh).
  apply Detail_Render_frame in Hr as (_ & cs & Hc & Hwait & Hf).
  assert (Hd : draws_frame d ac = true).
  { unfold draws_frame. rewrite Hj.
    destruct (UIContext_Detail._window d); [reflexivity|now destruct Hwin]. }
  rewrite Hd, Hrun in Hf. destruct Hf as (_ & _ & _ & _ & _ & _ & Hs & ->).
  exists w1, (glfwWaitEventsTimeout UIEngine_timeout :: cs).
  split; [exact Hb|]. split; [exact Hh1|].
  rewrite Hc. cbn [calls]. rewrite <- app_assoc.
  split; [reflexivity|]. simpl. now rewrite Hs, Hwait.
Qed.

Lemma UIEngine_draws_while_no_Quit
  (frames : list FrameEnv) (ac : ApplicationContext.t) (w : World)
  (u : UIContext.t) (a : addr) (d : UIContext_Detail.t) (cls : UIClass) :
  ApplicationContextBase.ui (ApplicationContext.base ac) = Some u ->
  UIContext.m_ u = Some a ->
  heap w !! a = Some (UIContext_Detail_obj d) ->
  UIContext_Detail._window d <> nullptr ->
  UIContext_Detail._context d <> nullptr ->
  UIContext_Detail._run d = Some cls ->
  read_join_now as_ApplicationContextBase ac = false ->
  existsb Quit_pressed frames = false ->
  exists w' cs,
    UIEngine frames ac w = Ok (Running ac) w'
    /\ heap w' = heap w
    /\ calls w' = calls w ++ cs
    /\ count_calls is_SwapBuffers cs = length frames
    /\ count_calls is_wait cs = length frames.
Proof.
  intros Hu Hm Hh Hwin Hctx Hrun Hj. revert w Hh.
  induction frames as [|f frames IH]; intros w Hh Hq;
    rewrite UIEngine_unfold, Hj.
  - exists w, []. rewrite app_nil_r. now repeat split.
  - cbn [existsb] in Hq. apply orb_false_iff in Hq as (Hqf & Hq).
    destruct (UIEngine_body_draws f ac w u a d cls Hu Hm Hh Hwin Hctx Hrun Hj)
      as (w1 & cs1 & Hb & Hh1 & Hc1 & Hs1 & Hw1).
    rewrite Hqf, Run_store_false in Hb.
    rewrite (bind_Ok _ _ _ _ _ Hb).
    destruct (IH w1) as (w' & cs2 & Hr & Hh2 & Hc2 & Hs2 & Hw2);
      [now rewrite Hh1 | exact Hq |].
    exists w', (cs1 ++ cs2). split; [exact Hr|]. split; [congruence|].
    rewrite Hc2, Hc1, <- app_assoc, !count_calls_app.
    split; [reflexivity|]. cbn [length]. split; lia.
Qed.

(** X11: with the UI context in place (its [Detail] on the heap, with a
    window, an ImGui context and the [Run] callback) and [join_now]
    reading [false], as long as Quit is not pressed [UIEngine] goes
    through every frame it is given without undefined behaviour and draws
    each of them; it is then still in its loop, and the context and the
    heap are exactly as they were. *)
Theorem X11_UIEngine_draws_every_frame_until_Quit
  (frames : list FrameEnv) (ac : ApplicationContext.t) (w : World)
  (u : UIContext.t) (a : addr) (d : UIContext_Detail.t) (cls : UIClass) :
  ApplicationContextBase.ui (ApplicationContext.base ac) = Some u ->
  UIContext.m_ u = Some a ->
  heap w !! a = Some (UIContext_Detail_obj d) ->
  UIContext_Detail._window d <> nullptr ->
  UIContext_Detail._context d <> nullptr ->
  UIContext_Detail._run d = Some cls ->
  read_join_now as_ApplicationContextBase ac = false ->
  existsb Quit_pressed frames = false ->
  exists w' cs,
    UIEngine frames ac w = Ok (Running ac) w'
    /\ heap w' = heap w
    /\ calls w' = calls w ++ cs
    /\ count_calls is_SwapBuffers cs = length frames
    /\ count_calls is_wait cs = length frames.
Proof. apply UIEngine_draws_while_no_Quit. Qed.

Lemma UIEngine_only_waits
  (frames : list FrameEnv) (ac : ApplicationContext.t) (w : World)
  (u : UIContext.t) (a : addr) (d : UIContext_Detail.t) :
  ApplicationContextBase.ui (ApplicationContext.base ac) = Some u ->
  UIContext.m_ u = Some a ->
  heap w !! a = Some (UIContext_Detail_obj d) ->
  UIContext_Detail._window d = nullptr ->
  read_join_now as_ApplicationContextBase ac = false ->
  UIEngine frames ac w
  = Ok (Running ac)
      (mkWorld (heap w)
         (calls w
          ++ repeat (glfwWaitEventsTimeout UIEngine_timeout) (length frames))).
Proof.
  intros Hu Hm Hh Hwin Hj. revert w Hh.
  induction frames as [|f frames IH]; intros w Hh; rewrite UIEngine_unfold, Hj.
  - cbn [length repeat]. now rewrite app_nil_r, world_eta.
  - set (w1 := mkWorld (heap w)
                 (calls w ++ [glfwWaitEventsTimeout UIEngine_timeout])).
    assert (Hb : UIEngine_body f ac w = Ok ac w1).
    { unfold UIEngine_body, ApplicationContext_Update.
      rewrite (bind_Ok _ _ _ _ _ (call_Ok _ _)), Hu.
      fold w1. unfold bind. rewrite (Render_deref u f ac w1 a d Hm Hh).
      unfold UIContext_Detail_Render. rewrite Hwin. reflexivity. }
    rewrite (bind_Ok _ _ _ _ _ Hb), (IH w1 Hh).
    subst w1. cbn [heap calls length repeat].
    now rewrite <- app_assoc.
Qed.


(** X12: when the UI window could not be created ([_window] is null),
    every iteration of [UIEngine] only waits: no frame is drawn, [Run] is
    never called, and so neither [join_now] member can ever be set. After
    any number of frames the context and the heap are unchanged and the
    calls added are one [glfwWaitEventsTimeout] per frame. *)
Theorem X12_UIEngine_without_a_window_only_waits
  (frames : list FrameEnv) (ac : ApplicationContext.t) (w : World)
  (u : UIContext.t) (a : addr) (d : UIContext_Detail.t) :
  ApplicationContextBase.ui (ApplicationContext.base ac) = Some u ->
  UIContext.m_ u = Some a ->
  heap w !! a = Some (UIContext_Detail_obj d) ->
  UIContext_Detail._window d = nullptr ->
  read_join_now as_ApplicationContextBase ac = false ->
  UIEngine frames ac w
  = Ok (Running ac)
      (mkWorld (heap w)
         (calls w
          ++ repeat (glfwWaitEventsTimeout UIEngine_timeout) (length frames))).
Proof. apply UIEngine_only_waits. Qed.

(** ** Exceptions *)

Lemma never_throws_ret {A} (a : A) : never_throws (ret a).
Proof. intros w e w' H. discriminate. Qed.

Lemma never_throws_call (c : Call) : never_throws (call c).
Proof. intros w e w' H. discriminate. Qed.

Lemma never_throws_undefined {A} : never_throws (@undefined A).
Proof. intros w e w' H. discriminate. Qed.

Lemma never_throws_bind {A B} (c : M A) (k : A -> M B) :
  never_throws c -> (forall a, never_throws (k a)) -> never_throws (bind c k).
Proof.
  intros Hc Hk w e w' H. unfold bind in H.
  destruct (c w) as [a w1|e1 w1|] eqn:E.
  - now apply Hk in H.
  - now apply Hc in E.
  - discriminate.
Qed.

Lemma never_throws_deref (p : ptr) : never_throws (deref_UIContext_Detail p).
Proof.
  intros w e w' H. unfold deref_UIContext_Detail in H.
  destruct p as [x|]; [|discriminate].
  destruct (heap w !! x) as [[| | |d]|]; discriminate.
Qed.

Create HintDb never_throws_db.
#[local] Hint Resolve never_throws_ret never_throws_call
  never_throws_undefined never_throws_deref : never_throws_db.

Ltac never_throws_tac :=
  cbv zeta;
  repeat lazymatch goal with
  | |- never_throws (bind _ _) => apply never_throws_bind; [| intros ? ]
  | |- never_throws (if ?b then _ else _) => destruct b
  | |- never_throws (match ?x with _ => _ end) => destruct x
  | |- never_throws _ => solve [auto with never_throws_db]
  end.

Lemma never_throws_UIEngine_body f ac : never_throws (UIEngine_body f ac).
Proof.
  unfold UIEngine_body, ApplicationContext_Update, UIContext_Render.
  never_throws_tac.
  unfold UIContext_Detail_Render, ActivateContext, UIContext_Run,
    GusteauChapter1UI_Run_at.
  never_throws_tac.
Qed.

Lemma never_throws_UIEngine frames :
  forall ac, never_throws (UIEngine frames ac).
Proof.
  induction frames as [|f frames IH]; intros ac w e w' H;
    rewrite UIEngine_unfold in H;
    destruct (read_join_now as_ApplicationContextBase ac); try discriminate.
  revert H. apply never_throws_bind; [apply never_throws_UIEngine_body|].
  intros ac1. apply IH.
Qed.

Lemma never_throws_new (d : Detail) : never_throws (new d).
Proof. intros w e w' H. discriminate. Qed.

Lemma never_throws_delete (p : ptr) : never_throws (delete_ p).
Proof. intros w e w' H. destruct p; discriminate. Qed.

Lemma never_throws_when (b : bool) (c : M unit) :
  never_throws c -> never_throws (when b c).
Proof. intros H. destruct b; [exact H | apply never_throws_ret]. Qed.

#[local] Hint Resolve never_throws_new never_throws_delete never_throws_when
  never_throws_UIEngine : never_throws_db.

(** ** The outcomes of main *)

(** What [main] does once the root graphics context is built. *)
Lemma main_try_after_root env frames w gc w1 :
  CreateRootGraphicsContext env w = Ok (Some gc) w1 ->
  (forall e w', main_try env frames w <> Throw e w')
  /\ (forall code w', main_try env frames w = Ok (Exited code) w' -> code = 0).
Proof.
  intros H1. unfold main_try. rewrite (bind_Ok _ _ _ _ _ H1). split.
  - revert w1 H1. intros w1 _.
    match goal with
    | |- forall e w', ?c w1 <> Throw e w' =>
        cut (never_throws c); [intros Hn e w'; apply Hn|]
    end.
    unfold CreateUIContext, GusteauChapter1UI_ctor, UIContext_ctor,
      UIContext_Detail_ctor, setGlfwFlags, CreateApplicationContext,
      ApplicationContext_ctor, ApplicationContextBase_ctor,
      StateContext_ctor, RenderContext_ctor, StateEngine, RenderEngine,
      ApplicationContext_dtor, RenderContext_dtor, StateContext_dtor,
      UIContext_dtor, UIContext_Detail_dtor, GLFWGraphicsContext_dtor,
      GraphicsContext_dtor.
    never_throws_tac.
  - intros code w' H. inv_bind H.
    repeat match type of H with
           | match ?x with _ => _ end _ = _ =>
               destruct x; try discriminate; inv_bind H
           end.
    all: now inversion H.
Qed.

(** X13: [main] returns 1 exactly when [glfwInit] fails. Then its only
    calls are [glfwSetErrorCallback], [glfwInit] and the message
    [Unexpected termination due to Could not initialize glfw] on
    [std::cerr], no window is created and the heap is as it was. When
    [glfwInit] succeeds nothing is thrown on the way: whatever the frames,
    [main] does not return 1. *)
Theorem X13_main_returns_1_exactly_when_glfwInit_fails
  (env : InitEnv) (frames : list FrameEnv) (w : World) :
  (glfwInit_result env = 0 ->
   main env frames w
   = Ok (Exited 1)
       (mkWorld (heap w)
          (calls w
           ++ [ glfwSetErrorCallback; glfwInit;
                std_cerr
                  "Unexpected termination due to Could not initialize glfw" ])))
  /\ (glfwInit_result env <> 0 ->
      match main env frames w with
      | Ok (Exited code) _ => code = 0
      | Ok NotExited _ => True
      | Throw _ _ => False
      | Undefined => True
      end).
Proof.
  split; intros E.
  - unfold main, main_try, CreateRootGraphicsContext.
    unfold bind at 1. unfold bind at 1.
    rewrite (GLFWGraphicsContext_ctor_fails env w E).
    unfold bind, call, ret. cbn [heap calls]. now rewrite <- app_assoc.
  - destruct (startup_steps env w E)
      as (a1 & a2 & a3 & a4 & cs & w1 & w2 & H1 & _).
    cbv zeta in H1.
    destruct (main_try_after_root env frames w _ _ H1) as (Hthrow & Hcode).
    unfold main. destruct (main_try env frames w) as [[code|] w'|e w'|] eqn:Hm.
    + eapply Hcode. reflexivity.
    + exact I.
    + exfalso. exact (Hthrow e w' eq_refl).
    + exact I.
Qed.

Lemma main_try_after_startup env frames w :
  glfwInit_result env <> 0 ->
  exists ac w3 cs,
    calls w3 = calls w ++ cs
    /\ count_calls is_wait cs = 0%nat
    /\ count_calls is_SwapBuffers cs = 0%nat
    /\ read_join_now as_ApplicationContextBase ac = false
    /\ (exists a,
           ApplicationContextBase.ui (ApplicationContext.base ac)
           = Some (UIContext.mk (Some a) GusteauChapter1UI)
           /\ heap w3 !! a
              = Some (UIContext_Detail_obj
                        (UIContext_Detail.mk (ui_window env)
                           (imgui_context env) "gusteau"
                           (Some GusteauChapter1UI))))
    /\ forall ac' w',
        UIEngine frames ac w3 = Ok (Running ac') w' ->
        main_try env frames w = Ok NotExited w'.
Proof.
  intros E.
  destruct (startup_steps env w E)
    as (a1 & a2 & a3 & a4 & cs & w1 & w2 & H1 & H2 & H3 & Hnd & _ & _ & _ & _
        & Hw & Hs).
  cbv zeta in H1, H2, H3.
  match type of H3 with _ = Ok (Some ?c) ?x => exists c, x, cs end.
  split; [reflexivity|]. split; [exact Hw|].
  split; [exact Hs|]. split; [reflexivity|]. split.
  - exists a2. split; [reflexivity|]. cbn [heap].
    apply NoDup_cons in Hnd as (_ & Hnd).
    apply NoDup_cons in Hnd as (Hn2 & _).
    rewrite lookup_insert_ne, lookup_insert_ne, lookup_insert_eq;
      [reflexivity| |];
      intros ->; apply Hn2; rewrite list_elem_of_In; simpl; tauto.
  - intros ac' w' Hu.
    unfold main_try. rewrite (bind_Ok _ _ _ _ _ H1).
    rewrite (bind_Ok _ _ _ _ _ H2), (bind_Ok _ _ _ _ _ H3).
    unfold StateEngine, RenderEngine.
    rewrite (bind_Ok _ _ _ _ _ eq_refl), (bind_Ok _ _ _ _ _ eq_refl).
    now rewrite (bind_Ok _ _ _ _ _ Hu).
Qed.

(** X14: when [glfwInit] succeeds and ImGui gave a context, or no UI
    window could be made, then as long as Quit is not pressed (and always
    when there is no window) [main] has no undefined behaviour: it goes
    through every frame it is given and is then still in [UIEngine]. It
    has waited once per frame and, when there is a UI window, swapped
    buffers once per frame; without a window it has drawn nothing. *)
Theorem X14_main_runs_through_every_frame
  (env : InitEnv) (frames : list FrameEnv) (w : World) :
  glfwInit_result env <> 0 ->
  imgui_context env <> nullptr \/ ui_window env = nullptr ->
  existsb Quit_pressed frames = false \/ ui_window env = nullptr ->
  exists w' cs,
    main env frames w = Ok NotExited w'
    /\ calls w' = calls w ++ cs
    /\ count_calls is_wait cs = length frames
    /\ count_calls is_SwapBuffers cs
       = (if is_null (ui_window env) then 0%nat else length frames).
Proof.
  intros E Hok Hq.
  destruct (main_try_after_startup env frames w E)
    as (ac & w3 & cs & Hc & Hw & Hs & Hj & (a & Hu & Hh) & Hm).
  unfold main.
  destruct (ui_window env) as [win|] eqn:Ewin.
  - destruct Hok as [Hctx|Hwin]; [|discriminate].
    destruct Hq as [Hq|Hwin]; [|discriminate].
    destruct (UIEngine_draws_while_no_Quit frames ac w3 _ a _
                GusteauChapter1UI Hu eq_refl Hh)
      as (w' & cs2 & Hr & _ & Hc2 & Hs2 & Hw2);
      try assumption; try reflexivity; try discriminate.
    rewrite (Hm _ _ Hr). exists w', (cs ++ cs2).
    split; [reflexivity|]. rewrite Hc2, Hc, <- app_assoc, !count_calls_app.
    split; [reflexivity|]. cbn [is_null]. split; lia.
  - pose proof (UIEngine_only_waits frames ac w3 _ a _ Hu eq_refl Hh eq_refl
                  Hj) as Hr.
    rewrite (Hm _ _ Hr).
    eexists _, (cs ++ _). cbn [calls is_null]. rewrite Hc, <- app_assoc.
    split; [reflexivity|]. split; [reflexivity|].
    rewrite !count_calls_app, Hw, Hs.
    generalize (length frames) as n.
    induction n as [|n IH]; cbn [repeat count_calls is_wait is_SwapBuffers];
      [split; reflexivity|]. lia.
Qed.

(** ** What stays fixed once the context is built *)

Lemma program_steps_frame (s s' : ProgramState) :
  rtc program_step s s' ->
  (fst s' = fst s
   \/ fst s' = assign_join_now Run_parameter true (fst s))
  /\ heap (snd s') = heap (snd s)
  /\ exists cs, calls (snd s') = calls (snd s) ++ cs.
Proof.
  intros Hr. induction Hr as [x|x y z Hxy _ IH].
  - split; [now left|]. split; [reflexivity|]. exists [].
    now rewrite app_nil_r.
  - destruct Hxy as [op Hop].
    pose proof (only_calls_run_op op _ _ _ _ Hop) as (Hh & cs1 & Hc1).
    apply run_op_context in Hop.
    destruct IH as (Hctx & Hh2 & cs2 & Hc2).
    split; [|split; [congruence|]].
    + destruct Hop as [Hy|[_ Hy]], Hctx as [Hz|Hz]; rewrite Hz, Hy;
        rewrite ?assign_true_twice; auto.
    + exists (cs1 ++ cs2). now rewrite Hc2, Hc1, app_assoc.
Qed.

(** X15: once the application context is built, nothing the program does
    (the three engines, the loop body, [Render], [Run], [Update], in any
    number and order) changes any of its fields other than the one
    [join_now] that the parameter type of [Run] names, and that member can
    only go to [true]; nothing is allocated or freed; and calls already
    made are never retracted. *)
Theorem X15_only_join_now_changes_after_construction
  (ac ac' : ApplicationContext.t) (w w' : World) :
  rtc program_step (ac, w) (ac', w') ->
  (ac' = ac \/ ac' = assign_join_now Run_parameter true ac)
  /\ heap w' = heap w
  /\ exists cs, calls w' = calls w ++ cs.
Proof. intros Hr. exact (program_steps_frame _ _ Hr). Qed.

(** ** The two readings of the parameter of Run *)

(** X16: if the lambda reaches [Run] with the parameter typed as line 569
    writes it ([ApplicationContext&]), then in every state the program can
    reach after [CreateApplicationContext] the member [UIEngine] polls,
    [ApplicationContextBase::join_now], is [false]; from any such state
    [UIEngine] does not return, whatever frames follow, and [main] never
    returns 0. *)
Theorem X16_as_written_the_polled_flag_stays_false :
  Run_parameter = as_ApplicationContext ->
  (forall (s : ProgramState) (frames : list FrameEnv),
      reachable s ->
      read_join_now as_ApplicationContextBase (fst s) = false
      /\ is_Returned (UIEngine frames (fst s) (snd s)) = false)
  /\ (forall env frames w, exits_normally (main env frames w) = false).
Proof.
  intros Er. split.
  - intros s frames Hr. apply (reachable_base_join_now s Er) in Hr.
    split; [exact Hr|]. now apply UIEngine_keeps_running.
  - intros env frames w. now apply main_does_not_exit_normally.
Qed.

(** X17: if the lambda reaches [Run] with the parameter type that the
    [override] specifier of line 569 requires ([ApplicationContextBase&]),
    then a Quit press ends the loop: with the UI context in place and
    [join_now] reading [false], the frame in which Quit is pressed is
    still drawn to its end, [true] is stored in
    [ApplicationContextBase::join_now], and [UIEngine] returns at the next
    test without looking at the frames that follow. *)
Theorem X17_with_the_overriding_signature_Quit_ends_the_loop
  (f : FrameEnv) (frames : list FrameEnv) (ac : ApplicationContext.t)
  (w : World) (u : UIContext.t) (a : addr) (d : UIContext_Detail.t)
  (cls : UIClass) :
  Run_parameter = as_ApplicationContextBase ->
  ApplicationContextBase.ui (ApplicationContext.base ac) = Some u ->
  UIContext.m_ u = Some a ->
  heap w !! a = Some (UIContext_Detail_obj d) ->
  UIContext_Detail._window d <> nullptr ->
  UIContext_Detail._context d <> nullptr ->
  UIContext_Detail._run d = Some cls ->
  read_join_now as_ApplicationContextBase ac = false ->
  Quit_pressed f = true ->
  exists w1 cs,
    UIEngine (f :: frames) ac w
    = Ok (Returned (assign_join_now as_ApplicationContextBase true ac)) w1
    /\ heap w1 = heap w
    /\ calls w1 = calls w ++ cs
    /\ count_calls is_wait cs = 1%nat
    /\ count_calls is_SwapBuffers cs = 1%nat.
Proof.
  intros Er Hu Hm Hh Hwin Hctx Hrun Hj Hq.
  destruct (UIEngine_body_draws f ac w u a d cls Hu Hm Hh Hwin Hctx Hrun Hj)
    as (w1 & cs & Hb & Hh1 & Hc & Hs & Hw).
  unfold Run_store in Hb. rewrite Hq, Er in Hb.
  exists w1, cs. rewrite UIEngine_unfold, Hj, (bind_Ok _ _ _ _ _ Hb).
  rewrite UIEngine_unfold. cbn [read_join_now assign_join_now
    ApplicationContext.base ApplicationContextBase.join_now].
  now repeat split.
Qed.

End Reading.

(** * Concrete runs

    The statements above, applied to the example context under one
    reading or the other. *)

Definition example_ui : UIContext.t :=
  UIContext.mk (Some 2%positive) GusteauChapter1UI.

Lemma C5_UIEngine_iteration_witness :
  exists w1 ac1 w2 cs,
    call (glfwWaitEventsTimeout UIEngine_timeout) example_world = Ok tt w1
    /\ UIContext_Render as_ApplicationContextBase example_ui (frame false)
         example_context w1 = Ok ac1 w2
    /\ ApplicationContext_Update ac1 w2 = Ok ac1 w2
    /\ calls w2
       = calls example_world
         ++ glfwWaitEventsTimeout UIEngine_timeout :: cs
    /\ heap w2 = heap example_world
    /\ (if is_null (UIContext_Detail._window example_Detail)
        then cs = [] /\ ac1 = example_context
        else head cs
             = Some (glfwMakeContextCurrent
                       (UIContext_Detail._window example_Detail))
             /\ last cs
                = Some (glfwSwapBuffers
                          (UIContext_Detail._window example_Detail)))
    /\ UIEngine_body as_ApplicationContextBase (frame false) example_context
         example_world = Ok ac1 w2
    /\ UIEngine as_ApplicationContextBase (frame false :: [frame false])
         example_context example_world
       = UIEngine as_ApplicationContextBase [frame false] ac1 w2
    /\ UIEngine as_ApplicationContextBase [frame false] example_context
         example_world
       = Ok (if read_join_now as_ApplicationContextBase ac1
             then Returned ac1 else Running ac1) w2.
Proof.
  apply (proj1 (proj2 (proj2
           (C5_UIEngine_iteration as_ApplicationContextBase (frame false)
              [frame false] example_context example_world eq_refl)))
           example_ui 2%positive example_Detail).
  - reflexivity.
  - reflexivity.
  - vm_compute. reflexivity.
  - left. reflexivity.
Defined.

Lemma C6_join_now_set_once_and_kept_witness :
  read_join_now as_ApplicationContext
    (fst (quit_handler true example_context,
          mkWorld example_heap [ImGui_Text "Hello world"; ImGui_Button "Quit"]))
  = true.
Proof.
  apply (proj2 (C6_join_now_set_once_and_kept as_ApplicationContext)
           (quit_handler true example_context, example_world)
           _ as_ApplicationContext).
  - apply rtc_once. exists (op_Run GusteauChapter1UI (frame false)).
    reflexivity.
  - reflexivity.
Defined.

Lemma C8_Render_returns_at_once_witness :
  UIContext_Render as_ApplicationContextBase example_ui (frame true)
    (assign_join_now as_ApplicationContextBase true example_context)
    example_world
  = Ok (assign_join_now as_ApplicationContextBase true example_context)
      example_world.
Proof.
  apply (C8_Render_returns_at_once as_ApplicationContextBase _ _ _ _
           2%positive example_Detail).
  - reflexivity.
  - vm_compute. reflexivity.
  - left. reflexivity.
Defined.

Lemma X9_Render_draws_whole_frames_witness :
  exists ac' w',
    UIContext_Detail_Render as_ApplicationContextBase 2%positive
      example_Detail (frame true) example_context example_world = Ok ac' w'
    /\ heap w' = heap example_world
    /\ exists cs,
        calls w' = calls example_world ++ cs
        /\ if draws_frame example_Detail example_context then
             head cs
             = Some (glfwMakeContextCurrent
                       (UIContext_Detail._window example_Detail))
             /\ last cs
                = Some (glfwSwapBuffers
                          (UIContext_Detail._window example_Detail))
             /\ count_calls is_NewFrame cs = 1%nat
             /\ count_calls is_Begin cs = 1%nat
             /\ count_calls is_End cs = 1%nat
             /\ count_calls is_Render cs = 1%nat
             /\ count_calls is_SwapBuffers cs = 1%nat
             /\ ac' = match UIContext_Detail._run example_Detail with
                      | Some _ =>
                          if Quit_pressed (frame true)
                          then assign_join_now as_ApplicationContextBase
                                 true example_context
                          else example_context
                      | None => example_context
                      end
           else cs = [] /\ ac' = example_context.
Proof.
  eexists _, _. split; [vm_compute; reflexivity|].
  apply (X9_Render_draws_whole_frames as_ApplicationContextBase 2%positive
           example_Detail (frame true) example_context).
  vm_compute. reflexivity.
Defined.

Lemma X10_UIEngine_calls_are_balanced_witness :
  exists r w',
    UIEngine as_ApplicationContextBase [frame false; frame true; frame false]
      example_context example_world = Ok r w'
    /\ heap w' = heap example_world
    /\ exists cs,
        calls w' = calls example_world ++ cs
        /\ (count_calls is_wait cs
            <= length [frame false; frame true; frame false])%nat
        /\ match r with
           | Running _ =>
               count_calls is_wait cs
               = length [frame false; frame true; frame false]
           | Returned ac' =>
               read_join_now as_ApplicationContextBase ac' = true
           end
        /\ count_calls is_NewFrame cs = count_calls is_Render cs
        /\ count_calls is_Begin cs = count_calls is_End cs
        /\ count_calls is_NewFrame cs = count_calls is_Begin cs
        /\ count_calls is_NewFrame cs = count_calls is_SwapBuffers cs
        /\ (count_calls is_NewFrame cs <= count_calls is_wait cs)%nat.
Proof.
  eexists _, _. split; [vm_compute; reflexivity|].
  apply (X10_UIEngine_calls_are_balanced as_ApplicationContextBase
           [frame false; frame true; frame false] example_context
           example_world).
  vm_compute. reflexivity.
Defined.

Lemma X11_UIEngine_draws_every_frame_until_Quit_witness :
  exists w' cs,
    UIEngine as_ApplicationContextBase [frame false; frame false]
      example_context example_world
    = Ok (Running example_context) w'
    /\ heap w' = heap example_world
    /\ calls w' = calls example_world ++ cs
    /\ count_calls is_SwapBuffers cs = length [frame false; frame false]
    /\ count_calls is_wait cs = length [frame false; frame false].
Proof.
  apply (X11_UIEngine_draws_every_frame_until_Quit as_ApplicationContextBase
           [frame false; frame false] example_context example_world
           example_ui 2%positive example_Detail GusteauChapter1UI);
    try reflexivity; try discriminate.
Defined.

Lemma X12_UIEngine_without_a_window_only_waits_witness :
  UIEngine as_ApplicationContextBase [frame true; frame true] example_context
    example_world_no_window
  = Ok (Running example_context)
      (mkWorld (heap example_world_no_window)
         (calls example_world_no_window
          ++ repeat (glfwWaitEventsTimeout UIEngine_timeout)
               (length [frame true; frame true]))).
Proof.
  apply (X12_UIEngine_without_a_window_only_waits as_ApplicationContextBase
           [frame true; frame true] example_context example_world_no_window
           example_ui 2%positive
           (UIContext_Detail.mk None (Some 300%positive) "gusteau"
              (Some GusteauChapter1UI)));
    reflexivity.
Defined.

Lemma X13_main_returns_1_exactly_when_glfwInit_fails_witness :
  main as_ApplicationContextBase env_no_glfw [frame true] empty_world
  = Ok (Exited 1)
      (mkWorld (heap empty_world)
         (calls empty_world
          ++ [ glfwSetErrorCallback; glfwInit;
               std_cerr
                 "Unexpected termination due to Could not initialize glfw" ])).
Proof.
  apply (proj1 (X13_main_returns_1_exactly_when_glfwInit_fails
                  as_ApplicationContextBase env_no_glfw [frame true]
                  empty_world)).
  reflexivity.
Defined.

Lemma X14_main_runs_through_every_frame_witness :
  exists w' cs,
    main as_ApplicationContextBase env_ok [frame false; frame false]
      empty_world = Ok NotExited w'
    /\ calls w' = calls empty_world ++ cs
    /\ count_calls is_wait cs = length [frame false; frame false]
    /\ count_calls is_SwapBuffers cs
       = (if is_null (ui_window env_ok) then 0%nat
          else length [frame false; frame false]).
Proof.
  apply (X14_main_runs_through_every_frame as_ApplicationContextBase env_ok
           [frame false; frame false] empty_world).
  - discriminate.
  - left. discriminate.
  - left. reflexivity.
Defined.

Lemma X15_only_join_now_changes_after_construction_witness :
  (assign_join_now as_ApplicationContextBase true example_context
   = example_context
   \/ assign_join_now as_ApplicationContextBase true example_context
      = assign_join_now as_ApplicationContextBase true example_context)
  /\ heap (mkWorld example_heap
             [ImGui_Text "Hello world"; ImGui_Button "Quit"])
     = heap example_world
  /\ exists cs,
      calls (mkWorld example_heap
               [ImGui_Text "Hello world"; ImGui_Button "Quit"])
      = calls example_world ++ cs.
Proof.
  apply (X15_only_join_now_changes_after_construction
           as_ApplicationContextBase example_context
           (assign_join_now as_ApplicationContextBase true example_context)
           example_world
           (mkWorld example_heap
              [ImGui_Text "Hello world"; ImGui_Button "Quit"])).
  apply rtc_once. exists (op_Run GusteauChapter1UI (frame true)).
  reflexivity.
Defined.

Lemma X16_as_written_the_polled_flag_stays_false_witness :
  (read_join_now as_ApplicationContextBase
     (fst (example_context, example_world)) = false
   /\ is_Returned
        (UIEngine as_ApplicationContext [frame true; frame false]
           (fst (example_context, example_world))
           (snd (example_context, example_world))) = false)
  /\ exits_normally
       (main as_ApplicationContext env_ok [frame true; frame false]
          empty_world) = false.
Proof.
  pose proof (X16_as_written_the_polled_flag_stays_false
                as_ApplicationContext eq_refl) as [Hs Hm].
  split; [|apply Hm].
  apply Hs.
  exists (ApplicationContext.root_graphics_context example_context),
    (Some example_ui),
    (mkWorld
       (<[2%positive := UIContext_Detail_obj example_Detail]>
          (<[1%positive := GraphicsContext_Detail]> ∅)) []),
    example_context, example_world.
  split; [vm_compute; reflexivity | apply rtc_refl].
Defined.

Lemma X17_with_the_overriding_signature_Quit_ends_the_loop_witness :
  exists w1 cs,
    UIEngine as_ApplicationContextBase (frame true :: [frame false])
      example_context example_world
    = Ok (Returned
            (assign_join_now as_ApplicationContextBase true example_context))
        w1
    /\ heap w1 = heap example_world
    /\ calls w1 = calls example_world ++ cs
    /\ count_calls is_wait cs = 1%nat
    /\ count_calls is_SwapBuffers cs = 1%nat.
Proof.
  apply (X17_with_the_overriding_signature_Quit_ends_the_loop
           as_ApplicationContextBase (frame true) [frame false]
           example_context example_world example_ui 2%positive
           example_Detail GusteauChapter1UI);
    try reflexivity; try discriminate.
Defined.
